(** * gosearch: a shallow embedding of [main.go] and its properties

    The program is one function, [run], that parses flags, queries
    api.godoc.org, sorts and filters the hits, prints a table, reads a
    selection from standard input and spawns [go get].  Everything the
    program does to the outside world is recorded as a trace of [event]s;
    everything it receives from the outside world comes from a [world].

    The repository holds two versions of the file. They share [run] from the
    call of [queryGodoc] on, and differ in how the command line is read
    (package flag with a [-goflags] flag in main.go, a hand-written
    [parseArgs] in the other) and in the struct tag of [pack.ImportCount].
    Module [Main] is main.go, module [Other] the other version.

    Go's [int] is modelled as [Z]: the only arithmetic in the program is the
    counter [i++] and [packN-1], both far from the 64-bit bounds, and the
    integers that come in are those [strconv.Atoi] returns. Strings are byte
    strings ([String.string]). Standard input is a script of the results of
    the successive calls of [ReadString]. *)

From Stdlib Require Import ZArith List String Ascii Bool Lia.
From Stdlib Require Import Permutation Sorted DecimalString Floats Uint63.
Import ListNotations.
Local Open Scope string_scope.
Local Open Scope Z_scope.

(** ** Characters and small string helpers *)

Definition byte_of (n : nat) : ascii := ascii_of_nat n.
Definition nl : string := String (byte_of 10) "".
Definition tab : string := String (byte_of 9) "".
Definition dquote : ascii := byte_of 34.
Definition backslash : ascii := byte_of 92.

Definition len (A : Type) (l : list A) : Z := Z.of_nat (List.length l).
Arguments len {A} l.

(** ** Models of the Go library functions whose behaviour is simple enough
       to write down exactly *)

Module Go.

(** [strings.Contains(s, substr)]: byte-wise substring test. *)
Fixpoint Contains (s substr : string) : bool :=
  if String.prefix substr s then true
  else match s with
       | EmptyString => false
       | String _ s' => Contains s' substr
       end.

(** [strings.Join(elems, sep)]. *)
Definition Join (elems : list string) (sep : string) : string :=
  String.concat sep elems.

(** The verb [%d] of package fmt on an [int]. *)
Definition itoa (z : Z) : string := NilZero.string_of_int (Z.to_int z).

(** [strings.TrimPrefix(s, prefix)]. *)
Definition TrimPrefix (s pre : string) : string :=
  if String.prefix pre s
  then String.substring (String.length pre) (String.length s - String.length pre) s
  else s.

(** [strings.Index(s, substr)] for a one-byte [substr]; [-1] when absent. *)
Fixpoint IndexByte (s : string) (c : ascii) : Z :=
  match s with
  | EmptyString => -1
  | String a s' =>
      if Ascii.eqb a c then 0
      else let i := IndexByte s' c in if i <? 0 then -1 else i + 1
  end.

End Go.

(** ** The data model *)

(** [type pack struct] (main.go 165-173). *)
Record pack : Type := mkPack {
  Name : string;
  Path : string;
  ImportCount : Z;
  Synopsis : string;
  Fork : bool;
  Stars : Z;
  Score : float
}.

(** The zero value of [pack]. *)
Definition pack_zero : pack := mkPack "" "" 0 "" false 0 0%float.

(** [packsByStars.Less] and [packsByImports.Less] (main.go 179, 185), on the
    elements rather than on their indices. *)
Definition Less_packsByStars (a b : pack) : bool := Stars a >? Stars b.
Definition Less_packsByImports (a b : pack) : bool := ImportCount a >? ImportCount b.

(** The parsed command line: the flag variables of [run] (main.go 30-39).
    [goflags] is [None] for a nil slice. *)
Record flags : Type := mkFlags {
  limit : Z;
  forks : bool;
  apps : bool;
  minStars : Z;
  minImports : Z;
  showInstalled : bool;
  inPath : bool;
  goflags : option (list string)
}.

(** The defaults declared with the flags. *)
Definition default_flags : flags := mkFlags 10 false false 1 0 false true None.

(** ** JSON values, as [encoding/json] sees them after scanning *)

#[local] Set Warnings "-register-all".

Inductive json : Type :=
| JNull
| JBool (b : bool)
| JNumber (lit : string)
| JString (s : string)
| JArray (elems : list json)
| JObject (members : list (string * json)).

#[local] Set Warnings "register-all".

(** ** Errors *)

Inductive error : Type :=
| ErrTransport (msg : string)        (* returned by http.Get *)
| ErrNew (msg : string)              (* errors.New(msg), fmt.Errorf *)
| ErrSyntax (msg : string)           (* the body is not JSON *)
| ErrUnmarshalType (field : string)  (* a value of the wrong kind for a field *)
| ErrExec (msg : string).            (* returned by cmd.Run *)

(** ** The outside world *)

(** One call of [reader.ReadString('\n')]: a full line (delimiter included)
    with a nil error, or an error together with the data read before it. *)
Inductive read_result : Type :=
| Line (s : string)
| ReadErr (partial : string).

Inductive http_result : Type :=
| HttpFail (msg : string)
| HttpResp (StatusCode : Z) (Status : string) (Body : string + json).

Record world : Type := mkWorld {
  http_Get : string -> http_result;
  go_list : string -> bool;                          (* [go list path] exits 0 *)
  exec_LookPath : string -> option string;
  cmd_Run : string -> list string -> option string;  (* [Some msg]: failure *)
  stdin : list read_result
}.

(** What the program does, in program order. *)
Inductive event : Type :=
| Stdout (s : string)
| Stderr (s : string)
| PrintlnErr (e : error)                 (* fmt.Println(err) *)
| PrintDefaults                          (* flag.PrintDefaults() *)
| TabHeader                              (* the header row written to w *)
| TabRow (i stars imports : Z) (path synopsis : string)
| TabFlush
| HttpGet (url : string)
| GoList (path : string)                 (* exec.Command("go","list",path).Run() *)
| LookPath (file : string)
| ReadString                             (* reader.ReadString('\n') *)
| Spawn (bin : string) (args : list string). (* cmd.Run() with inherited output *)

(** How a run ends: [run] returns a status; or the script of read results
    in [stdin] is used up while the program is in [ReadString], so that the
    script does not determine how the run goes on; or a run-time panic. *)
Inductive ending : Type :=
| Exit (code : Z)
| Blocked
| Panic.

Definition outcome : Type := (list event * ending)%type.

(** The bytes behind the two table events. *)
Definition header_text : string :=
  "#" ++ tab ++ "Stars" ++ tab ++ "Imports" ++ tab ++ "Path" ++ tab ++ "Description" ++ tab ++ nl.

Definition row_text (i stars imports : Z) (path synopsis : string) : string :=
  Go.itoa i ++ tab ++ Go.itoa stars ++ tab ++ Go.itoa imports ++ tab
    ++ path ++ tab ++ synopsis ++ tab ++ nl.

(** ** The part of the Go library that is taken as given *)

Record golib : Type := mkGolib {
  sort_Sort : (pack -> pack -> bool) -> list pack -> list pack;
  strings_TrimSpace : string -> string;
  strconv_Atoi : string -> option Z;
  strconv_ParseFloat : string -> option float;
  url_QueryEscape : string -> string
}.

(** ** Struct tags and the keys [encoding/json] binds to the fields *)

Definition result (A : Type) : Type := (A + error)%type.
Definition Ok {A : Type} (a : A) : result A := inl a.
Definition Err {A : Type} (e : error) : result A := inr e.

Definition snoc (s : string) (c : ascii) : string := s ++ String c "".
Definition quoted (s : string) : string := String dquote (snoc s dquote).

Module StructTag.

(** The scanner of [reflect.StructTag.Lookup], one byte at a time: reading
    a key, having read the colon, reading the quoted value, and having
    read a backslash inside the value. *)
Inductive scan : Type :=
| InKey (name : string)
| AfterColon (name : string)
| InValue (name value : string)
| Escaped (name value : string).

Definition is_key_byte (c : ascii) : bool :=
  let n := nat_of_ascii c in
  (32 <? n)%nat && negb (n =? 58)%nat && negb (n =? 34)%nat && negb (n =? 127)%nat.

Fixpoint has_byte (c : ascii) (s : string) : bool :=
  match s with
  | EmptyString => false
  | String a s' => Ascii.eqb a c || has_byte c s'
  end.

(** [strconv.Unquote] of the quoted value, for values free of backslashes
    and line feeds (every tag of this program); [None] stands for a value
    outside that fragment. *)
Definition Unquote (value : string) : option string :=
  if has_byte backslash value || has_byte (byte_of 10) value then None else Some value.

Fixpoint Lookup_from (key : string) (st : scan) (tag : string) : option string :=
  match tag with
  | EmptyString => None
  | String c rest =>
      match st with
      | InKey name =>
          if (name =? "")%string && Ascii.eqb c " " then Lookup_from key (InKey "") rest
          else if is_key_byte c then Lookup_from key (InKey (snoc name c)) rest
          else if Ascii.eqb c ":" && negb (name =? "")%string
               then Lookup_from key (AfterColon name) rest
               else None
      | AfterColon name =>
          if Ascii.eqb c dquote then Lookup_from key (InValue name "") rest else None
      | InValue name value =>
          if Ascii.eqb c dquote
          then if (name =? key)%string then Unquote value
               else Lookup_from key (InKey "") rest
          else if Ascii.eqb c backslash
               then Lookup_from key (Escaped name (snoc value c)) rest
               else Lookup_from key (InValue name (snoc value c)) rest
      | Escaped name value => Lookup_from key (InValue name (snoc value c)) rest
      end
  end.

Definition Lookup (tag key : string) : option string := Lookup_from key (InKey "") tag.

(** [StructTag.Get]: the empty string when the key is absent or the tag
    is not of the conventional form. *)
Definition Get (tag key : string) : string :=
  match Lookup tag key with Some v => v | None => "" end.

End StructTag.

Module Json.

(** The fields of [pack], in declaration order, with the Go name and the
    struct tag of each. *)
Inductive field_id : Type :=
| FName | FPath | FImportCount | FSynopsis | FFork | FStars | FScore.

Record struct_field : Type := mkField {
  go_name : string;
  struct_tag : string;
  fid : field_id
}.

(** [parseTag]: the name is what precedes the first comma. *)
Fixpoint before_comma (s : string) : string :=
  match s with
  | EmptyString => EmptyString
  | String c r => if Ascii.eqb c "," then EmptyString else String c (before_comma r)
  end.

Definition is_letter_or_digit (c : ascii) : bool :=
  let n := nat_of_ascii c in
  ((48 <=? n) && (n <=? 57) || (65 <=? n) && (n <=? 90) || (97 <=? n) && (n <=? 122))%nat.

Fixpoint all_bytes (ok : ascii -> bool) (s : string) : bool :=
  match s with
  | EmptyString => true
  | String c r => ok c && all_bytes ok r
  end.

(** [isValidTag], on ASCII names: letters, digits and the listed
    punctuation; a name with a byte outside ASCII counts as invalid here. *)
Definition isValidTag (s : string) : bool :=
  negb (s =? "")%string
  && all_bytes (fun c => StructTag.has_byte c "!#$%&()*+-./:;<=>?@[]^_{|}~ "
                         || is_letter_or_digit c) s.

(** The key under which [typeFields] registers a field; [None] for a field
    tagged ["-"], which is left out. *)
Definition json_key (f : struct_field) : option string :=
  let tag := StructTag.Get (struct_tag f) "json" in
  if (tag =? "-")%string then None
  else let name := before_comma tag in
       Some (if isValidTag name then name else go_name f).

Definition upper (c : ascii) : ascii :=
  let n := nat_of_ascii c in
  if ((97 <=? n) && (n <=? 122))%nat then ascii_of_nat (n - 32) else c.

Definition is_byte (n : nat) (c : ascii) : bool := (nat_of_ascii c =? n)%nat.

(** [foldName]: ASCII letters go to upper case; the two runes outside
    ASCII whose fold is an ASCII letter, U+017F (bytes C5 BF) and U+212A
    (bytes E2 84 AA), go to [S] and [K]. Every other byte outside ASCII is
    kept, which decides equality with the fold of an ASCII name the way Go
    does: such a key matches none. *)
Fixpoint foldName (s : string) : string :=
  match s with
  | EmptyString => EmptyString
  | String a r1 =>
      match r1 with
      | String b r2 =>
          if is_byte 197 a && is_byte 191 b then String "S" (foldName r2)
          else match r2 with
               | String c r3 =>
                   if is_byte 226 a && is_byte 132 b && is_byte 170 c
                   then String "K" (foldName r3)
                   else String (upper a) (foldName r1)
               | EmptyString => String (upper a) (foldName r1)
               end
      | EmptyString => String (upper a) (foldName r1)
      end
  end.

Definition key_is (key : string) (f : struct_field) : bool :=
  match json_key f with Some k => (k =? key)%string | None => false end.

Definition key_folds_to (key : string) (f : struct_field) : bool :=
  match json_key f with
  | Some k => (foldName k =? foldName key)%string
  | None => false
  end.

(** The field an object member is decoded into: the one registered under
    exactly that key, else the one whose key has the same fold. *)
Definition find_field (fields : list struct_field) (key : string) : option struct_field :=
  match find (key_is key) fields with
  | Some f => Some f
  | None => find (key_folds_to key) fields
  end.

Definition set_Name (v : string) (p : pack) : pack :=
  mkPack v (Path p) (ImportCount p) (Synopsis p) (Fork p) (Stars p) (Score p).
Definition set_Path (v : string) (p : pack) : pack :=
  mkPack (Name p) v (ImportCount p) (Synopsis p) (Fork p) (Stars p) (Score p).
Definition set_ImportCount (v : Z) (p : pack) : pack :=
  mkPack (Name p) (Path p) v (Synopsis p) (Fork p) (Stars p) (Score p).
Definition set_Synopsis (v : string) (p : pack) : pack :=
  mkPack (Name p) (Path p) (ImportCount p) v (Fork p) (Stars p) (Score p).
Definition set_Fork (v : bool) (p : pack) : pack :=
  mkPack (Name p) (Path p) (ImportCount p) (Synopsis p) v (Stars p) (Score p).
Definition set_Stars (v : Z) (p : pack) : pack :=
  mkPack (Name p) (Path p) (ImportCount p) (Synopsis p) (Fork p) v (Score p).
Definition set_Score (v : float) (p : pack) : pack :=
  mkPack (Name p) (Path p) (ImportCount p) (Synopsis p) (Fork p) (Stars p) v.

Section Decode.
Variable L : golib.
Variable fields : list struct_field.

Definition decode_string (field : string) (v : json) (set : string -> pack -> pack)
           (p : pack) : result pack :=
  match v with
  | JNull => Ok p
  | JString s => Ok (set s p)
  | _ => Err (ErrUnmarshalType field)
  end.

(** An [int] field takes a number literal that [strconv.ParseInt]
    accepts in base 10 within 64 bits, which is what [Atoi] accepts. *)
Definition decode_int (field : string) (v : json) (set : Z -> pack -> pack)
           (p : pack) : result pack :=
  match v with
  | JNull => Ok p
  | JNumber lit =>
      match strconv_Atoi L lit with
      | Some z => Ok (set z p)
      | None => Err (ErrUnmarshalType field)
      end
  | _ => Err (ErrUnmarshalType field)
  end.

Definition decode_bool (field : string) (v : json) (set : bool -> pack -> pack)
           (p : pack) : result pack :=
  match v with
  | JNull => Ok p
  | JBool b => Ok (set b p)
  | _ => Err (ErrUnmarshalType field)
  end.

Definition decode_float (field : string) (v : json) (set : float -> pack -> pack)
           (p : pack) : result pack :=
  match v with
  | JNull => Ok p
  | JNumber lit =>
      match strconv_ParseFloat L lit with
      | Some x => Ok (set x p)
      | None => Err (ErrUnmarshalType field)
      end
  | _ => Err (ErrUnmarshalType field)
  end.

Definition decode_field (f : struct_field) (v : json) (p : pack) : result pack :=
  match fid f with
  | FName => decode_string (go_name f) v set_Name p
  | FPath => decode_string (go_name f) v set_Path p
  | FImportCount => decode_int (go_name f) v set_ImportCount p
  | FSynopsis => decode_string (go_name f) v set_Synopsis p
  | FFork => decode_bool (go_name f) v set_Fork p
  | FStars => decode_int (go_name f) v set_Stars p
  | FScore => decode_float (go_name f) v set_Score p
  end.

(** The members of an object are taken in order, each one decoded into
    the current value of the struct; a member that matches no field is
    skipped. *)
Fixpoint decode_members (ms : list (string * json)) (p : pack) : result pack :=
  match ms with
  | [] => Ok p
  | (k, v) :: ms' =>
      match find_field fields k with
      | None => decode_members ms' p
      | Some f =>
          match decode_field f v p with
          | inl p' => decode_members ms' p'
          | inr e => Err e
          end
      end
  end.

Definition decode_pack (v : json) (p : pack) : result pack :=
  match v with
  | JNull => Ok p
  | JObject ms => decode_members ms p
  | _ => Err (ErrUnmarshalType "Results")
  end.

(** An array element is decoded into the element already at that index
    when the slice has one, into a zero value otherwise. *)
Fixpoint decode_array (elems : list json) (old : list pack) : result (list pack) :=
  match elems with
  | [] => Ok []
  | v :: vs =>
      match decode_pack v (hd pack_zero old) with
      | inl p =>
          match decode_array vs (tl old) with
          | inl ps => Ok (p :: ps)
          | inr e => Err e
          end
      | inr e => Err e
      end
  end.

(** The one field of [struct{ Results []pack }]; it has no tag. *)
Definition is_Results (key : string) : bool :=
  (key =? "Results")%string || (foldName key =? foldName "Results")%string.

Fixpoint decode_top (ms : list (string * json)) (cur : list pack) : result (list pack) :=
  match ms with
  | [] => Ok cur
  | (k, v) :: ms' =>
      if is_Results k then
        match v with
        | JNull => decode_top ms' []
        | JArray elems =>
            match decode_array elems cur with
            | inl ps => decode_top ms' ps
            | inr e => Err e
            end
        | _ => Err (ErrUnmarshalType "Results")
        end
      else decode_top ms' cur
  end.

(** [json.NewDecoder(resp.Body).Decode(&results)] followed by
    [results.Results], for a body that scanned as the value [v]. *)
Definition Decode (v : json) : result (list pack) :=
  match v with
  | JNull => Ok []
  | JObject ms => decode_top ms []
  | _ => Err (ErrUnmarshalType "")
  end.

End Decode.

End Json.

(** ** The program *)

(** The struct tags of [pack]. The tag of [ImportCount] is the one place
    where the two versions of the struct differ: in main.go 168 its key is
    [bool], not [json]; in the other version the key is [json] and the
    closing quote of the value is missing. *)
Definition ImportCount_tag_main : string := "bool:" ++ quoted "import_count".
Definition ImportCount_tag_other : string := "json:" ++ String dquote "import_count".

Definition pack_fields (ImportCount_tag : string) : list Json.struct_field :=
  [ Json.mkField "Name" ("json:" ++ quoted "name,omitempty") Json.FName;
    Json.mkField "Path" ("json:" ++ quoted "path") Json.FPath;
    Json.mkField "ImportCount" ImportCount_tag Json.FImportCount;
    Json.mkField "Synopsis" ("json:" ++ quoted "synopsis,omitempty") Json.FSynopsis;
    Json.mkField "Fork" ("json:" ++ quoted "fork,omitempty") Json.FFork;
    Json.mkField "Stars" ("json:" ++ quoted "stars,omitempty") Json.FStars;
    Json.mkField "Score" ("json:" ++ quoted "score,omitempty") Json.FScore ].

(** What the selector loop hands on. *)
Inductive selection : Type :=
| Selected (packN : Z) (rest : list read_result)
| Declined
| Starved.

(** [s[i]] on a slice: [None] is the index-out-of-range panic. *)
Definition index {A : Type} (l : list A) (i : Z) : option A :=
  if i <? 0 then None else nth_error l (Z.to_nat i).

Section Program.
Variable L : golib.
Variable fields : list Json.struct_field.

(** [queryGodoc] (main.go 187-204). *)
Definition queryGodoc (w : world) (q : string) : list event * result (list pack) :=
  let url := "https://api.godoc.org/search?q=" ++ url_QueryEscape L q in
  ([HttpGet url],
   match http_Get w url with
   | HttpFail msg => Err (ErrTransport msg)
   | HttpResp StatusCode Status Body =>
       if negb (StatusCode =? 200) then Err (ErrNew ("godoc: " ++ Status))
       else match Body with
            | inl msg => Err (ErrSyntax msg)
            | inr v => Json.Decode L fields v
            end
   end).

(** The [switch] of main.go 60-65. *)
Definition sort_matches (f : flags) (matches : list pack) : list pack :=
  if negb (apps f) then sort_Sort L Less_packsByImports matches
  else sort_Sort L Less_packsByStars matches.

(** The loop of main.go 71-102, from the state [(i, packs)]; the events
    are the [go list] runs and the rows written to the tabwriter. *)
Fixpoint range_matches (f : flags) (query : string) (w : world)
         (matches : list pack) (i : Z) (packs : list pack)
  : list event * (Z * list pack) :=
  match matches with
  | [] => ([], (i, packs))
  | p :: rest =>
      if negb (forks f) && Fork p then range_matches f query w rest i packs
      else if apps f && negb (Name p =? "main")%string then range_matches f query w rest i packs
      else if negb (apps f) && (Name p =? "main")%string then range_matches f query w rest i packs
      else if Stars p <? minStars f then range_matches f query w rest i packs
      else if ImportCount p <? minImports f then range_matches f query w rest i packs
      else if inPath f && negb (Go.Contains (Path p) query) then range_matches f query w rest i packs
      else
        let i := i + 1 in
        let path := if showInstalled f && go_list w (Path p) then "*" ++ Path p else Path p in
        let evs := ((if showInstalled f then [GoList (Path p)] else [])
                    ++ [TabRow i (Stars p) (ImportCount p) path (Synopsis p)])%list in
        let packs := (packs ++ [p])%list in
        if (limit f >? 0) && (len packs >=? limit f) then (evs, (i, packs))
        else let '(evs', st) := range_matches f query w rest i packs in ((evs ++ evs')%list, st)
  end.

(** Sorting, the table and its legend (main.go 60-106): the events and the
    slice [packs]. *)
Definition filter_rank (f : flags) (query : string) (w : world) (matches : list pack)
  : list event * list pack :=
  let '(rows, (_, packs)) := range_matches f query w (sort_matches f matches) 0 [] in
  (([TabHeader] ++ rows ++ [TabFlush]
      ++ (if showInstalled f then [Stdout ("* = installed" ++ nl)] else []))%list,
   packs).

Definition prompt : list event := [Stdout "Install Package #: "; ReadString].

(** The selection loop (main.go 115-133) over [n = len(packs)] entries. *)
Fixpoint selector (n : Z) (input : list read_result) : list event * selection :=
  match input with
  | [] => (prompt, Starved)
  | ReadErr _ :: rest =>
      let '(evs, s) := selector n rest in
      ((prompt ++ [Stdout "error reading from stdin"] ++ evs)%list, s)
  | Line input :: rest =>
      match strconv_Atoi L (strings_TrimSpace L input) with
      | None => (prompt, Declined)
      | Some packN =>
          if (packN <? 1) || (packN >? n)
          then let '(evs, s) := selector n rest in
               ((prompt ++ [Stdout ("No entry for " ++ Go.itoa packN ++ nl)] ++ evs)%list, s)
          else (prompt, Selected packN rest)
      end
  end.

(** [args] of main.go 145-147. *)
Definition install_args (goflags : list string) (importPath : string) : list string :=
  ((["get"] ++ goflags) ++ [importPath])%list.

(** From [Installing] to the end (main.go 137-162). *)
Definition install (w : world) (goflags : list string) (importPath : string)
           (input : list read_result) : outcome :=
  let e1 := [Stdout ("Installing " ++ importPath ++ nl); LookPath "go"] in
  match exec_LookPath w "go" with
  | None => ((e1 ++ [Stdout ("Could not find go binary in PATH" ++ nl)])%list, Exit 1)
  | Some goBin =>
      let args := install_args goflags importPath in
      let e2 := (e1 ++ [Stdout ("Install command: " ++ goBin ++ " " ++ Go.Join args " " ++ nl);
                        Stdout ("Press enter to continue..." ++ nl);
                        ReadString])%list in
      match input with
      | [] => (e2, Blocked)
      | _ :: _ =>
          match cmd_Run w goBin args with
          | Some msg => ((e2 ++ [Spawn goBin args; PrintlnErr (ErrExec msg)])%list, Exit 1)
          | None => ((e2 ++ [Spawn goBin args])%list, Exit 0)
          end
      end
  end.

(** [run] from the call of [queryGodoc] on (main.go 54-162), which the two
    versions share; [goflags] is the pass-through list in force. *)
Definition run_from_query (goflags : list string) (f : flags) (query : string) (w : world)
  : outcome :=
  let '(e0, r) := queryGodoc w query in
  match r with
  | inr err => ((e0 ++ [PrintlnErr err])%list, Exit 1)
  | inl matches =>
      let '(e1, packs) := filter_rank f query w matches in
      if len packs =? 0 then ((e0 ++ e1 ++ [Stdout ("No matches." ++ nl)])%list, Exit 1)
      else
        let '(e2, s) := selector (len packs) (stdin w) in
        match s with
        | Declined => ((e0 ++ e1 ++ e2)%list, Exit 0)
        | Starved => ((e0 ++ e1 ++ e2)%list, Blocked)
        | Selected packN rest =>
            match index packs (packN - 1) with
            | None => ((e0 ++ e1 ++ e2)%list, Panic)
            | Some p =>
                let '(e3, fin) := install w goflags (Path p) rest in
                ((e0 ++ e1 ++ e2 ++ e3)%list, fin)
            end
        end
  end.

End Program.

(** ** main.go *)

Module Main.

Definition fields : list Json.struct_field := pack_fields ImportCount_tag_main.

(** The default of main.go 50-52. *)
Definition goflags_in_force (f : flags) : list string :=
  match goflags f with
  | None => ["-u"; "-v"]
  | Some g => g
  end.

(** [run] after [flag.Parse]: [f] holds the flag values and [arg0] is
    [flag.Arg(0)], empty when there is no positional argument. *)
Definition run (L : golib) (f : flags) (arg0 : string) (w : world) : outcome :=
  if (arg0 =? "")%string
  then ([Stderr "Must provide search term."; PrintDefaults], Exit 1)
  else run_from_query L fields (goflags_in_force f) f arg0 w.

(** [isSpaceByte] (main.go 255-257). *)
Definition isSpaceByte (c : ascii) : bool :=
  Ascii.eqb c " " || Ascii.eqb c (byte_of 9) || Ascii.eqb c (byte_of 10)
  || Ascii.eqb c (byte_of 13).

(** [splitQuotedFields] (main.go 219-253) as a scanner over the bytes:
    between fields, inside a quoted field, inside a plain field. *)
Inductive split_state : Type :=
| Between
| InQuoted (quote : ascii) (acc : string)
| InPlain (acc : string).

Fixpoint split_from (st : split_state) (s : string) (f : list string)
  : result (list string) :=
  match s with
  | EmptyString =>
      match st with
      | Between => Ok f
      | InQuoted quote _ => Err (ErrNew ("unterminated " ++ String quote " string"))
      | InPlain acc => Ok (f ++ [acc])%list
      end
  | String c r =>
      match st with
      | Between =>
          if isSpaceByte c then split_from Between r f
          else if Ascii.eqb c dquote || Ascii.eqb c "'" then split_from (InQuoted c "") r f
          else split_from (InPlain (String c "")) r f
      | InQuoted quote acc =>
          if Ascii.eqb c quote then split_from Between r (f ++ [acc])%list
          else split_from (InQuoted quote (snoc acc c)) r f
      | InPlain acc =>
          if isSpaceByte c then split_from Between r (f ++ [acc])%list
          else split_from (InPlain (snoc acc c)) r f
      end
  end.

Definition splitQuotedFields (s : string) : result (list string) :=
  split_from Between s [].

(** [stringsFlag.Set] (main.go 210-217): the value left in [goflags],
    never a nil slice, and the error returned to package flag. *)
Definition stringsFlag_Set (s : string) : option (list string) * option error :=
  match splitQuotedFields s with
  | inl f => (Some f, None)
  | inr e => (Some [], Some e)
  end.

End Main.

(** ** The other version of the file *)

Module Other.

Definition fields : list Json.struct_field := pack_fields ImportCount_tag_other.

(** The names declared on the flag set, for [flagset.Lookup]. *)
Definition flag_names : list string :=
  ["limit"; "forks"; "apps"; "minstars"; "minimports"; "installed"; "inpath"; "h"].

Definition Lookup (name : string) : bool := existsb (String.eqb name) flag_names.

(** The loop of [parseArgs]; [None] is the panic of [arg[0]] on an
    empty argument. *)
Fixpoint split_args (args : list string) (lastLocal : bool)
         (localArgs goArgs : list string) : option (list string * list string) :=
  match args with
  | [] => Some (localArgs, goArgs)
  | arg :: rest =>
      let norm := Go.TrimPrefix arg "-" in
      let i := Go.IndexByte norm "=" in
      let norm := if i >? -1 then String.substring 0 (Z.to_nat i) norm else norm in
      if Lookup norm then split_args rest true (localArgs ++ [arg])%list goArgs
      else if lastLocal then
        match arg with
        | EmptyString => None
        | String c _ =>
            if negb (Ascii.eqb c "-")
            then split_args rest true (localArgs ++ [arg])%list goArgs
            else split_args rest false localArgs (goArgs ++ [arg])%list
        end
      else split_args rest false localArgs (goArgs ++ [arg])%list
  end.

Inductive parsed : Type :=
| ParseError (e : error)
| ParsePanic
| Parsed (query : string) (goArgs localArgs : list string).

(** [parseArgs] up to the call of [flagset.Parse]. *)
Definition parseArgs (os_Args : list string) : parsed :=
  if len os_Args >? 2 then ParseError (ErrNew "Must provide search term")
  else match index os_Args (len os_Args - 1) with
       | None => ParsePanic
       | Some query =>
           if 1 >? len os_Args - 1 then ParsePanic
           else
             let args := firstn (Z.to_nat (len os_Args - 1 - 1)) (skipn 1 os_Args) in
             match split_args args false [] [] with
             | None => ParsePanic
             | Some (localArgs, goArgs) => Parsed query goArgs localArgs
             end
       end.

Definition usage : list event :=
  [Stderr ("Usage of gosearch:" ++ nl
           ++ "gosearch [flags] [go get flags] [search term]" ++ nl);
   PrintDefaults].

(** [run]; [flagset_Parse] gives the flag values and the value of [-h],
    or [None] when package flag ends the process itself
    ([flag.ExitOnError]). *)
Definition run (L : golib) (flagset_Parse : list string -> option (flags * bool))
           (os_Args : list string) (w : world) : outcome :=
  match parseArgs os_Args with
  | ParsePanic => ([], Panic)
  | ParseError e => ([PrintlnErr e; Stdout nl] ++ usage, Exit 1)%list
  | Parsed query goArgs localArgs =>
      match flagset_Parse localArgs with
      | None => ([], Exit 2)
      | Some (f, help) =>
          if help : bool then (usage, Exit 1)
          else run_from_query L fields goArgs f query w
      end
  end.

End Other.

(** ** One Go library *)

(** A concrete [golib], to run the program on examples. The properties
    below are proved for every [golib] that honours the contract of
    [sort.Sort]; this one does. *)
Module Std.

(** Insertion sort, the sort [sort.Sort] runs on short slices. *)
Fixpoint insert (less : pack -> pack -> bool) (x : pack) (l : list pack) : list pack :=
  match l with
  | [] => [x]
  | y :: l' => if less x y then x :: y :: l' else y :: insert less x l'
  end.

Fixpoint Sort (less : pack -> pack -> bool) (l : list pack) : list pack :=
  match l with
  | [] => []
  | x :: l' => insert less x (Sort less l')
  end.

Definition bytes (l : list nat) : string :=
  fold_right (fun n s => String (byte_of n) s) EmptyString l.

Fixpoint rev_string (s : string) : string :=
  match s with
  | EmptyString => EmptyString
  | String c r => snoc (rev_string r) c
  end.

(** The UTF-8 encodings of the runes for which [unicode.IsSpace] holds. *)
Definition space_runes : list string :=
  map bytes
      ([[9]; [10]; [11]; [12]; [13]; [32]; [194; 133]; [194; 160]; [225; 154; 128]]
       ++ map (fun n => [226; 128; n]) (seq 128 11)
       ++ [[226; 128; 168]; [226; 128; 169]; [226; 128; 175]; [226; 129; 159];
           [227; 128; 128]])%list%nat.

Fixpoint strip_prefix (pre s : string) : option string :=
  match pre, s with
  | EmptyString, _ => Some s
  | String a pre', String b s' => if Ascii.eqb a b then strip_prefix pre' s' else None
  | String _ _, EmptyString => None
  end.

Fixpoint strip_any (pres : list string) (s : string) : option string :=
  match pres with
  | [] => None
  | pre :: pres' =>
      match strip_prefix pre s with
      | Some r => Some r
      | None => strip_any pres' s
      end
  end.

Fixpoint trim_left (fuel : nat) (pres : list string) (s : string) : string :=
  match fuel with
  | O => s
  | S k =>
      match strip_any pres s with
      | Some r => trim_left k pres r
      | None => s
      end
  end.

(** [strings.TrimSpace]. *)
Definition TrimSpace (s : string) : string :=
  let l := trim_left (String.length s) space_runes s in
  rev_string (trim_left (String.length l) (map rev_string space_runes) (rev_string l)).

Definition digit (c : ascii) : option Z :=
  let n := nat_of_ascii c in
  if ((48 <=? n) && (n <=? 57))%nat then Some (Z.of_nat n - 48) else None.

Fixpoint digits (s : string) (acc : Z) : option Z :=
  match s with
  | EmptyString => Some acc
  | String c r =>
      match digit c with
      | Some d => digits r (acc * 10 + d)
      | None => None
      end
  end.

(** [strconv.Atoi] with a 64-bit [int]: an optional sign, at least one
    decimal digit and nothing else, within the range of [int]. *)
Definition Atoi (s : string) : option Z :=
  let '(neg, body) :=
    match s with
    | String c r =>
        if Ascii.eqb c "-" then (true, r)
        else if Ascii.eqb c "+" then (false, r) else (false, s)
    | EmptyString => (false, s)
    end in
  match body with
  | EmptyString => None
  | String _ _ =>
      match digits body 0 with
      | Some n =>
          let v := if neg : bool then - n else n in
          if (- 2 ^ 63 <=? v) && (v <=? 2 ^ 63 - 1) then Some v else None
      | None => None
      end
  end.

(** [strconv.ParseFloat] on the literals this instance handles: integer
    literals of magnitude below 2^53 other than a signed zero, whose
    conversion is exact. Any other literal is refused. *)
Definition ParseFloat (s : string) : option float :=
  match Atoi s with
  | Some z =>
      if (0 <? z) && (z <? 2 ^ 53) then Some (PrimFloat.of_uint63 (Uint63.of_Z z))
      else if (- 2 ^ 53 <? z) && (z <? 0)
           then Some (PrimFloat.opp (PrimFloat.of_uint63 (Uint63.of_Z (- z))))
           else if (s =? "0")%string then Some 0%float else None
  | None => None
  end.

Definition hex_digit (n : nat) : ascii :=
  if (n <? 10)%nat then ascii_of_nat (48 + n) else ascii_of_nat (55 + n).

Definition unreserved (c : ascii) : bool :=
  Json.is_letter_or_digit c || StructTag.has_byte c "-_.~".

(** [url.QueryEscape]. *)
Fixpoint QueryEscape (s : string) : string :=
  match s with
  | EmptyString => EmptyString
  | String c r =>
      if unreserved c then String c (QueryEscape r)
      else if Ascii.eqb c " " then String "+" (QueryEscape r)
      else let n := nat_of_ascii c in
           String "%" (String (hex_digit (n / 16)) (String (hex_digit (n mod 16))
                                                          (QueryEscape r)))
  end.

Definition lib : golib := mkGolib Sort TrimSpace Atoi ParseFloat QueryEscape.

End Std.
(** ** The vocabulary of the properties *)

(** [sub] occurs in [s] as a run of consecutive bytes. *)
Definition substring_of (sub s : string) : Prop :=
  exists a b : string, s = a ++ sub ++ b.

(** The five conditions a hit has to meet to be displayed. *)
Record satisfies (f : flags) (query : string) (p : pack) : Prop := mkSatisfies {
  sat_fork : forks f = true \/ Fork p = false;
  sat_name : if apps f then Name p = "main" else Name p <> "main";
  sat_stars : Stars p >= minStars f;
  sat_imports : ImportCount p >= minImports f;
  sat_path : inPath f = false \/ substring_of query (Path p)
}.

(** The same five conditions as the loop tests them: [true] when none of
    the six [continue]s is taken. *)
Definition keep (f : flags) (query : string) (p : pack) : bool :=
  negb (negb (forks f) && Fork p)
  && negb (apps f && negb (Name p =? "main")%string)
  && negb (negb (apps f) && (Name p =? "main")%string)
  && negb (Stars p <? minStars f)
  && negb (ImportCount p <? minImports f)
  && negb (inPath f && negb (Go.Contains (Path p) query)).

(** The key the hits are ranked by. *)
Definition ranking_key (f : flags) (p : pack) : Z :=
  if apps f then Stars p else ImportCount p.

Definition non_increasing (f : flags) (a b : pack) : Prop :=
  ranking_key f a >= ranking_key f b.

(** What the documentation of [sort.Interface] asks of [Less], with the
    irreflexivity it takes for granted. *)
Record transitive_ordering (less : pack -> pack -> bool) : Prop := mkOrdering {
  ord_irrefl : forall a, less a a = false;
  ord_trans : forall a b c, less a b = true -> less b c = true -> less a c = true;
  ord_neg_trans : forall a b c, less a b = false -> less b c = false -> less a c = false
}.

(** What [sort.Sort] promises: the slice is rearranged, and for such a
    [Less] no element is less than its predecessor ([sort.IsSorted]). *)
Record sort_contract (L : golib) : Prop := mkContract {
  sort_permutes : forall less l, Permutation l (sort_Sort L less l);
  sort_sorts : forall less l, transitive_ordering less ->
                 Sorted (fun a b => less b a = false) (sort_Sort L less l)
}.

(** The consecutive integers [start], [start+1], ... ([n] of them). *)
Fixpoint Zseq (start : Z) (n : nat) : list Z :=
  match n with
  | O => []
  | S n' => start :: Zseq (start + 1) n'
  end.

(** The display indices, in the order the rows are written. *)
Fixpoint row_indices (evs : list event) : list Z :=
  match evs with
  | [] => []
  | TabRow i _ _ _ _ :: evs' => i :: row_indices evs'
  | _ :: evs' => row_indices evs'
  end.

(** The path as the table shows it. *)
Definition shown_path (f : flags) (w : world) (p : pack) : string :=
  if showInstalled f && go_list w (Path p) then "*" ++ Path p else Path p.

(** What the loop does for one displayed entry: the installed check when it
    is asked for, and the row. *)
Definition row_events (f : flags) (w : world) (i : Z) (p : pack) : list event :=
  ((if showInstalled f then [GoList (Path p)] else [])
   ++ [TabRow i (Stars p) (ImportCount p) (shown_path f w p) (Synopsis p)])%list.

Fixpoint rows_from (f : flags) (w : world) (i : Z) (ps : list pack) : list event :=
  match ps with
  | [] => []
  | p :: ps' => (row_events f w (i + 1) p ++ rows_from f w (i + 1) ps')%list
  end.

(** How many more entries the loop can take from the state [packs]: no
    bound without a positive limit; otherwise up to the limit, and one even
    when the limit is already reached, since the test follows the append. *)
Definition room (f : flags) (packs : list pack) : option nat :=
  if limit f >? 0 then Some (Z.to_nat (Z.max 1 (limit f - len packs))) else None.

Definition take {A : Type} (r : option nat) (l : list A) : list A :=
  match r with
  | Some n => firstn n l
  | None => l
  end.

Definition is_spawn (e : event) : bool :=
  match e with Spawn _ _ => true | _ => false end.

Definition is_read (e : event) : bool :=
  match e with ReadString => true | _ => false end.

(** A read after which the selector prompts again: a read error, or an
    integer outside [1..n]. *)
Definition reprompts (L : golib) (n : Z) (r : read_result) : Prop :=
  match r with
  | ReadErr _ => True
  | Line s => exists k, strconv_Atoi L (strings_TrimSpace L s) = Some k /\ (k < 1 \/ k > n)
  end.

(** The examples of the specification. *)
Definition example_world (lines : list read_result) : world :=
  mkWorld
    (fun _ => HttpResp 200 "200 OK"
       (inr (JObject [("results", JArray [
          JObject [("name", JString "foo"); ("path", JString "example.com/foo");
                   ("import_count", JNumber "7"); ("stars", JNumber "3")];
          JObject [("name", JString "bar"); ("path", JString "example.com/foobar");
                   ("ImportCount", JNumber "9"); ("stars", JNumber "5");
                   ("fork", JBool false)];
          JObject [("name", JString "main"); ("path", JString "example.com/foo/cmd");
                   ("stars", JNumber "8")];
          JObject [("name", JString "baz"); ("path", JString "example.com/foo-fork");
                   ("stars", JNumber "2"); ("fork", JBool true)]])])))
    (fun _ => false) (fun _ => Some "/usr/bin/go") (fun _ _ => None) lines.

(** What [example_world] answers, decoded by main.go. *)
Definition example_matches : list pack :=
  [ mkPack "foo" "example.com/foo" 0 "" false 3 0%float;
    mkPack "bar" "example.com/foobar" 9 "" false 5 0%float;
    mkPack "main" "example.com/foo/cmd" 0 "" false 8 0%float;
    mkPack "baz" "example.com/foo-fork" 0 "" true 2 0%float ].

(** A response with one hit whose import count is sent under the key
    [import_count]. *)
Definition import_count_body : json :=
  JObject [("results", JArray [
    JObject [("path", JString "example.com/foo"); ("import_count", JNumber "7")]])].

(** The same hit with the import count under the key [ImportCount]. *)
Definition ImportCount_body : json :=
  JObject [("results", JArray [
    JObject [("path", JString "example.com/foo"); ("ImportCount", JNumber "7")]])].

Definition not_import_count (m : string * json) : bool :=
  negb (fst m =? "import_count")%string.

(** Five hits, two of them forks and one an application. *)
Definition scenario_hits : list pack :=
  [ mkPack "alpha" "example.com/foo/alpha" 4 "first" false 3 0%float;
    mkPack "beta" "example.com/foo/beta" 9 "second" true 5 0%float;
    mkPack "main" "example.com/foo/cmd" 1 "third" false 8 0%float;
    mkPack "delta" "example.com/foo/delta" 7 "fourth" false 2 0%float;
    mkPack "eps" "example.com/foo/eps" 2 "fifth" true 1 0%float ].

(** ** More vocabulary, for the rest of the code *)

(** The same world with another script on standard input. *)
Definition with_stdin (w : world) (input : list read_result) : world :=
  mkWorld (http_Get w) (go_list w) (exec_LookPath w) (cmd_Run w) input.

Definition is_http (e : event) : bool :=
  match e with HttpGet _ => true | _ => false end.

(** The paths [go list] is run on, in order. *)
Fixpoint golist_paths (evs : list event) : list string :=
  match evs with
  | [] => []
  | GoList path :: evs' => path :: golist_paths evs'
  | _ :: evs' => golist_paths evs'
  end.

(** The kinds of event each phase of [run] is made of. *)
Definition table_event (e : event) : bool :=
  match e with
  | TabHeader | TabRow _ _ _ _ _ | TabFlush | GoList _ | Stdout _ => true
  | _ => false
  end.

Definition selector_event (e : event) : bool :=
  match e with
  | Stdout _ | ReadString => true
  | _ => false
  end.

Definition install_event (e : event) : bool :=
  match e with
  | Stdout _ | LookPath _ | ReadString | Spawn _ _ | PrintlnErr _ => true
  | _ => false
  end.

(** The events of a run between the request and the installer. *)
Definition front_event (e : event) : bool := table_event e || selector_event e.

Definition no_space (s : string) : bool :=
  Json.all_bytes (fun c => negb (Main.isSpaceByte c)) s.

Definition is_quote (c : ascii) : bool := Ascii.eqb c dquote || Ascii.eqb c "'".

Definition quote_free (s : string) : bool :=
  Json.all_bytes (fun c => negb (is_quote c)) s.

(** A field as [splitQuotedFields] reads it without quotes: not empty, free
    of space bytes, and not opening with a quote. *)
Definition plain_field (fld : string) : Prop :=
  match fld with
  | EmptyString => False
  | String c _ => is_quote c = false
  end
  /\ no_space fld = true.

(** The bytes of [s] that are not space bytes. *)
Fixpoint strip_spaces (s : string) : string :=
  match s with
  | EmptyString => EmptyString
  | String c r => if Main.isSpaceByte c then strip_spaces r else String c (strip_spaces r)
  end.

(** A JSON value that is neither [null] nor an object. *)
Definition not_a_hit (v : json) : Prop :=
  match v with
  | JNull | JObject _ => False
  | _ => True
  end.

(** A body that holds no hits: [null], or an object none of whose members
    is named [Results] in any case of the letters. *)
Definition no_results (body : json) : Prop :=
  match body with
  | JNull => True
  | JObject ms => Forall (fun m => Json.is_Results (fst m) = false) ms
  | _ => False
  end.

(** The flag name [parseArgs] looks up for an argument: the argument
    without one leading [-], up to the first [=]. *)
Definition flag_name (arg : string) : string :=
  let norm := Go.TrimPrefix arg "-" in
  let i := Go.IndexByte norm "=" in
  if i >? -1 then String.substring 0 (Z.to_nat i) norm else norm.

(** Two object members with the same value and names that differ at most
    in the case of their letters. *)
Definition same_member (m m' : string * json) : Prop :=
  Json.foldName (fst m) = Json.foldName (fst m') /\ snd m = snd m'.

(** * Properties *)

(** ** Strings *)

Lemma prefix_app (a s : string) :
  String.prefix a s = true <-> exists b : string, s = a ++ b.
Proof.
  revert s; induction a as [|c a IH]; intros s; simpl.
  - split; [intros _; exists s; reflexivity | intros _; destruct s; reflexivity].
  - destruct s as [|d s].
    + split; [discriminate | intros [b Hb]; discriminate].
    + simpl. destruct (ascii_dec c d) as [->|Hne].
      * rewrite IH. split; intros [b Hb]; exists b.
        -- now rewrite Hb.
        -- now injection Hb.
      * split; [discriminate | intros [b Hb]; injection Hb; congruence].
Qed.

Lemma Contains_step (s sub : string) :
  Go.Contains s sub =
  String.prefix sub s
  || match s with EmptyString => false | String _ s' => Go.Contains s' sub end.
Proof.
  destruct s as [|c s]; simpl;
    [destruct (String.prefix sub "") | destruct (String.prefix sub (String c s))];
    reflexivity.
Qed.

(** [strings.Contains] decides [substring_of]. *)
Lemma Contains_spec (s sub : string) :
  Go.Contains s sub = true <-> substring_of sub s.
Proof.
  unfold substring_of. induction s as [|c s IH];
    rewrite Contains_step, orb_true_iff, prefix_app.
  - split.
    + intros [[b Hb] | H]; [now exists "", b | discriminate].
    + intros (a & b & H). left. destruct a; [eauto | discriminate].
  - rewrite IH. split.
    + intros [[b Hb] | (a & b & H)]; [now exists "", b|].
      exists (String c a), b. simpl. now rewrite H.
    + intros (a & b & H). destruct a as [|c' a]; simpl in H.
      * left; eauto.
      * right. injection H as _ H. eauto.
Qed.

(** ** The filter *)

Lemma keep_satisfies (f : flags) (query : string) (p : pack) :
  keep f query p = true <-> satisfies f query p.
Proof.
  unfold keep. split.
  - rewrite !andb_true_iff, !negb_true_iff.
    intros [[[[[Hf Ha] Hl] Hs] Hi] Hp].
    constructor.
    + destruct (forks f), (Fork p); auto; discriminate.
    + destruct (apps f), (String.eqb_spec (Name p) "main"); simpl in *;
        auto; discriminate.
    + apply Z.ltb_ge in Hs. lia.
    + apply Z.ltb_ge in Hi. lia.
    + destruct (inPath f); auto. right. apply Contains_spec.
      simpl in Hp. now apply negb_false_iff in Hp.
  - intros [Hf Hn Hs Hi Hp].
    repeat (apply andb_true_intro; split); apply negb_true_iff.
    + destruct Hf as [-> | ->]; [reflexivity | apply andb_false_r].
    + destruct (apps f); [subst|reflexivity]. now rewrite Hn.
    + destruct (apps f); [reflexivity|]. simpl. now apply String.eqb_neq.
    + apply Z.ltb_ge. lia.
    + apply Z.ltb_ge. lia.
    + destruct Hp as [-> | Hp]; [reflexivity|].
      apply Contains_spec in Hp. rewrite Hp. apply andb_false_r.
Qed.

(** One step of the loop on a hit that fails a test, and on one that passes. *)
Lemma range_matches_skip f query w p rest i packs :
  keep f query p = false ->
  range_matches f query w (p :: rest) i packs = range_matches f query w rest i packs.
Proof.
  unfold keep; intros H; simpl.
  destruct (negb (forks f) && Fork p); [reflexivity|].
  destruct (apps f && negb (Name p =? "main")%string); [reflexivity|].
  destruct (negb (apps f) && (Name p =? "main")%string); [reflexivity|].
  destruct (Stars p <? minStars f); [reflexivity|].
  destruct (ImportCount p <? minImports f); [reflexivity|].
  destruct (inPath f && negb (Go.Contains (Path p) query)); [reflexivity|].
  discriminate.
Qed.

Lemma range_matches_keep f query w p rest i packs :
  keep f query p = true ->
  range_matches f query w (p :: rest) i packs =
  if (limit f >? 0) && (len (packs ++ [p]) >=? limit f)
  then (row_events f w (i + 1) p, (i + 1, (packs ++ [p])%list))
  else let '(evs, st) := range_matches f query w rest (i + 1) (packs ++ [p]) in
       ((row_events f w (i + 1) p ++ evs)%list, st).
Proof.
  unfold keep. rewrite !andb_true_iff, !negb_true_iff.
  intros [[[[[Hf Ha] Hl] Hs] Hi] Hp]. simpl.
  rewrite Hf, Ha, Hl, Hs, Hi, Hp. reflexivity.
Qed.

Lemma len_app {A : Type} (l l' : list A) : len (l ++ l') = len l + len l'.
Proof. unfold len. rewrite length_app. lia. Qed.

Lemma len_nonneg {A : Type} (l : list A) : 0 <= len l.
Proof. unfold len. lia. Qed.

Ltac close_state :=
  rewrite ?app_nil_r, <- ?app_assoc;
  apply f_equal2;
  [ reflexivity
  | apply f_equal2;
    [ unfold len; simpl; rewrite ?length_app; simpl; lia | reflexivity ] ].

(** The loop, in closed form: it appends the hits that pass the tests, in
    order, as far as there is room, numbers them on from [i], and writes
    one row for each. *)
Lemma range_matches_eq f query w matches : forall i packs,
  let taken := take (room f packs) (filter (keep f query) matches) in
  range_matches f query w matches i packs =
  (rows_from f w i taken, (i + len taken, (packs ++ taken)%list)).
Proof.
  induction matches as [|p rest IH]; intros i packs.
  - simpl. unfold take. destruct (room f packs) as [n|].
    + rewrite firstn_nil. simpl. close_state.
    + simpl. close_state.
  - cbv zeta. destruct (keep f query p) eqn:K.
    + rewrite range_matches_keep by assumption.
      simpl filter. rewrite K. unfold room.
      destruct (limit f >? 0) eqn:Hl.
      * apply Z.gtb_lt in Hl.
        destruct (len (packs ++ [p]) >=? limit f) eqn:Hge; simpl andb; cbv iota.
        -- apply Z.geb_le in Hge. rewrite len_app in Hge. change (len [p]) with 1 in Hge.
           replace (Z.max 1 (limit f - len packs)) with 1 by lia.
           simpl. close_state.
        -- rewrite Z.geb_leb in Hge. apply Z.leb_gt in Hge.
           rewrite len_app in Hge. change (len [p]) with 1 in Hge.
           specialize (IH (i + 1) (packs ++ [p])%list). cbv zeta in IH. rewrite IH.
           unfold room. replace (limit f >? 0) with true by (symmetry; apply Z.gtb_lt; lia).
           rewrite len_app. change (len [p]) with 1.
           replace (Z.to_nat (Z.max 1 (limit f - len packs)))
             with (S (Z.to_nat (Z.max 1 (limit f - (len packs + 1))))) by lia.
           simpl take. simpl rows_from. rewrite <- app_assoc. simpl.
           set (t := firstn _ _). close_state.
      * simpl andb. cbv iota.
        specialize (IH (i + 1) (packs ++ [p])%list). cbv zeta in IH. rewrite IH.
        unfold room. rewrite Hl. simpl take. simpl rows_from. rewrite <- app_assoc. simpl.
        close_state.
    + rewrite range_matches_skip by assumption. simpl filter. rewrite K. apply IH.
Qed.

(** What the filter and ranker hand on: the sorted hits that pass the
    tests, cut at the limit when it is positive. *)
Lemma filter_rank_eq L f query w matches :
  let packs := take (room f []) (filter (keep f query) (sort_matches L f matches)) in
  filter_rank L f query w matches =
  (([TabHeader] ++ rows_from f w 0 packs ++ [TabFlush]
      ++ (if showInstalled f then [Stdout ("* = installed" ++ nl)] else []))%list,
   packs).
Proof.
  cbv zeta. unfold filter_rank. rewrite range_matches_eq. reflexivity.
Qed.

Lemma filter_rank_packs L f query w matches :
  snd (filter_rank L f query w matches) =
  take (room f []) (filter (keep f query) (sort_matches L f matches)).
Proof. now rewrite filter_rank_eq. Qed.

Lemma In_firstn {A : Type} (x : A) (n : nat) : forall l : list A,
  In x (firstn n l) -> In x l.
Proof.
  induction n as [|n IH]; intros [|y l]; simpl; try tauto.
  intros [H | H]; [now left | right; now apply IH].
Qed.

Lemma In_take {A : Type} (r : option nat) (l : list A) (x : A) :
  In x (take r l) -> In x l.
Proof.
  destruct r as [n|]; simpl; [apply In_firstn | trivial].
Qed.

Lemma length_take {A : Type} (r : option nat) (l : list A) :
  (List.length (take r l) <= List.length l)%nat.
Proof.
  destruct r as [n|]; simpl; [rewrite length_firstn; lia | lia].
Qed.

Lemma filter_rank_In L f query w matches p :
  In p (snd (filter_rank L f query w matches)) ->
  In p (sort_matches L f matches) /\ keep f query p = true.
Proof.
  rewrite filter_rank_packs. intros H. apply In_take in H.
  now apply filter_In in H.
Qed.

(** C1. Every entry the filter and ranker puts out meets the five
    conditions (forks only when asked for, the name [main] exactly for
    applications, enough stars, enough imports, the query inside the path when
    that is asked for), and a hit that breaks one of them is not put out. *)
Theorem C1_output_satisfies_predicates :
  forall (L : golib) (f : flags) (query : string) (w : world) (matches : list pack),
    Forall (satisfies f query) (snd (filter_rank L f query w matches))
    /\ (forall p, ~ satisfies f query p ->
                  ~ In p (snd (filter_rank L f query w matches))).
Proof.
  intros L f query w matches.
  assert (H : forall p, In p (snd (filter_rank L f query w matches)) -> satisfies f query p).
  { intros p Hp. apply keep_satisfies. now apply filter_rank_In in Hp. }
  split.
  - now apply Forall_forall.
  - intros p Hn Hp. apply Hn, H, Hp.
Qed.

(** ** The display indices *)

Lemma row_indices_app (e1 e2 : list event) :
  row_indices (e1 ++ e2) = (row_indices e1 ++ row_indices e2)%list.
Proof.
  induction e1 as [|e e1 IH]; [reflexivity|].
  destruct e; simpl; rewrite IH; reflexivity.
Qed.

Lemma row_indices_rows_from f w (ps : list pack) : forall i,
  row_indices (rows_from f w i ps) = Zseq (i + 1) (List.length ps).
Proof.
  induction ps as [|p ps IH]; intros i; [reflexivity|].
  simpl. unfold row_events. rewrite !row_indices_app, IH.
  destruct (showInstalled f); reflexivity.
Qed.

Lemma In_Zseq (n : nat) : forall start k,
  In k (Zseq start n) <-> start <= k < start + Z.of_nat n.
Proof.
  induction n as [|n IH]; intros start k; simpl.
  - lia.
  - rewrite IH. lia.
Qed.

Lemma NoDup_Zseq (n : nat) : forall start, NoDup (Zseq start n).
Proof.
  induction n as [|n IH]; intros start; simpl; constructor.
  - rewrite In_Zseq. lia.
  - apply IH.
Qed.

(** C9. The display indices written in the table are 1, 2, ..., up to the
    number of entries put out, in this order: none is skipped and none comes
    twice. *)
Theorem C9_display_indices_consecutive :
  forall (L : golib) (f : flags) (query : string) (w : world) (matches : list pack),
    let out := filter_rank L f query w matches in
    row_indices (fst out) = Zseq 1 (List.length (snd out))
    /\ NoDup (row_indices (fst out))
    /\ (forall k, In k (row_indices (fst out)) <-> 1 <= k <= len (snd out)).
Proof.
  intros L f query w matches. cbv zeta.
  assert (E : row_indices (fst (filter_rank L f query w matches))
              = Zseq 1 (List.length (snd (filter_rank L f query w matches)))).
  { rewrite filter_rank_eq. cbn [fst snd].
    rewrite !row_indices_app, row_indices_rows_from.
    destruct (showInstalled f); simpl; rewrite app_nil_r; reflexivity. }
  rewrite E. split; [reflexivity|]. split.
  - apply NoDup_Zseq.
  - intros k. rewrite In_Zseq. unfold len. lia.
Qed.

(** ** Sorting *)

Lemma Less_packsByStars_ordering : transitive_ordering Less_packsByStars.
Proof.
  unfold Less_packsByStars. constructor; intros *.
  - rewrite Z.gtb_ltb. apply Z.ltb_irrefl.
  - rewrite !Z.gtb_ltb, !Z.ltb_lt. lia.
  - rewrite !Z.gtb_ltb, !Z.ltb_ge. lia.
Qed.

Lemma Less_packsByImports_ordering : transitive_ordering Less_packsByImports.
Proof.
  unfold Less_packsByImports. constructor; intros *.
  - rewrite Z.gtb_ltb. apply Z.ltb_irrefl.
  - rewrite !Z.gtb_ltb, !Z.ltb_lt. lia.
  - rewrite !Z.gtb_ltb, !Z.ltb_ge. lia.
Qed.

Section SortedLists.
Variable R : pack -> pack -> Prop.

Lemma StronglySorted_filter (keep : pack -> bool) (l : list pack) :
  StronglySorted R l -> StronglySorted R (filter keep l).
Proof.
  induction 1 as [|a l Hs IH Ha]; simpl; [constructor|].
  destruct (keep a); [|assumption].
  constructor; [assumption|].
  apply Forall_forall. intros x Hx. apply filter_In in Hx.
  now apply (proj1 (Forall_forall _ _) Ha).
Qed.

Lemma StronglySorted_firstn (n : nat) : forall l : list pack,
  StronglySorted R l -> StronglySorted R (firstn n l).
Proof.
  induction n as [|n IH]; intros l Hl; simpl; [constructor|].
  destruct l as [|a l]; [constructor|].
  apply StronglySorted_inv in Hl. destruct Hl as [Hs Ha].
  constructor; [now apply IH|].
  apply Forall_forall. intros x Hx. apply In_firstn in Hx.
  now apply (proj1 (Forall_forall _ _) Ha).
Qed.

Lemma StronglySorted_take (r : option nat) (l : list pack) :
  StronglySorted R l -> StronglySorted R (take r l).
Proof.
  destruct r; simpl; [apply StronglySorted_firstn | trivial].
Qed.
End SortedLists.

Lemma Sorted_weaken (R1 R2 : pack -> pack -> Prop) (l : list pack) :
  (forall a b, R1 a b -> R2 a b) -> Sorted R1 l -> Sorted R2 l.
Proof.
  intros HR. induction 1 as [|a l Hl IH Hhd]; constructor; [assumption|].
  destruct Hhd; constructor. now apply HR.
Qed.

(** After [sort.Sort] with a [Less] that compares a key with [>], the keys
    never go up. *)
Lemma sorted_by_key (L : golib) (key : pack -> Z) (l : list pack) :
  sort_contract L ->
  transitive_ordering (fun a b => key a >? key b) ->
  StronglySorted (fun a b => key a >= key b) (sort_Sort L (fun a b => key a >? key b) l).
Proof.
  intros HL Hord.
  assert (Hs := sort_sorts L HL _ l Hord).
  apply Sorted_StronglySorted.
  - intros a b c. lia.
  - revert Hs. apply Sorted_weaken. intros a b Hb.
    rewrite Z.gtb_ltb, Z.ltb_ge in Hb. lia.
Qed.

Lemma sort_matches_sorted (L : golib) (f : flags) (matches : list pack) :
  sort_contract L ->
  StronglySorted (non_increasing f) (sort_matches L f matches).
Proof.
  intros HL. unfold sort_matches, non_increasing, ranking_key.
  destruct (apps f); simpl.
  - apply (sorted_by_key L Stars matches HL Less_packsByStars_ordering).
  - apply (sorted_by_key L ImportCount matches HL Less_packsByImports_ordering).
Qed.

Lemma sort_matches_length (L : golib) (f : flags) (matches : list pack) :
  sort_contract L ->
  List.length (sort_matches L f matches) = List.length matches.
Proof.
  intros HL. unfold sort_matches.
  destruct (negb (apps f)); symmetry; apply Permutation_length, (sort_permutes L HL).
Qed.

(** C2. The entries put out are in non-increasing order of the ranking key,
    the stars when applications are asked for and the import count otherwise:
    no entry has a larger key than one before it. *)
Theorem C2_output_non_increasing :
  forall (L : golib) (f : flags) (query : string) (w : world) (matches : list pack),
    sort_contract L ->
    StronglySorted (fun a b => ranking_key f a >= ranking_key f b)
                   (snd (filter_rank L f query w matches)).
Proof.
  intros L f query w matches HL. rewrite filter_rank_packs.
  apply StronglySorted_take, StronglySorted_filter.
  exact (sort_matches_sorted L f matches HL).
Qed.

(** C8. With a positive limit the filter and ranker puts out at most that
    many entries; without one (zero or negative) it puts out every hit that
    passes the tests, so that only the number of hits bounds the output. In
    both cases the output is no longer than the input. *)
Theorem C8_output_length_bounded :
  forall (L : golib) (f : flags) (query : string) (w : world) (matches : list pack),
    sort_contract L ->
    let out := snd (filter_rank L f query w matches) in
    (limit f > 0 -> len out <= limit f)
    /\ (limit f <= 0 -> out = filter (keep f query) (sort_matches L f matches))
    /\ len out <= len matches.
Proof.
  intros L f query w matches HL. cbv zeta. rewrite filter_rank_packs.
  unfold room, len. split; [|split].
  - intros Hl. replace (limit f >? 0) with true by (symmetry; apply Z.gtb_lt; lia).
    simpl. rewrite length_firstn. lia.
  - intros Hl. destruct (Z.gtb_spec (limit f) 0); [lia | reflexivity].
  - pose proof (length_take
                  (if limit f >? 0 then Some (Z.to_nat (Z.max 1 (limit f - Z.of_nat (@List.length pack []))))
                   else None)
                  (filter (keep f query) (sort_matches L f matches))).
    pose proof (filter_length_le (keep f query) (sort_matches L f matches)).
    pose proof (sort_matches_length L f matches HL).
    lia.
Qed.

(** ** The library instance honours the contract of [sort.Sort] *)

Lemma Std_insert_perm less x l : Permutation (x :: l) (Std.insert less x l).
Proof.
  induction l as [|y l IH]; simpl; [apply Permutation_refl|].
  destruct (less x y); [apply Permutation_refl|].
  eapply perm_trans; [apply perm_swap|]. now apply perm_skip.
Qed.

Lemma Std_Sort_perm less l : Permutation l (Std.Sort less l).
Proof.
  induction l as [|x l IH]; simpl; [constructor|].
  eapply perm_trans; [apply perm_skip, IH | apply Std_insert_perm].
Qed.

Lemma Std_insert_sorted less x l :
  transitive_ordering less ->
  Sorted (fun a b => less b a = false) l ->
  Sorted (fun a b => less b a = false) (Std.insert less x l).
Proof.
  intros [Hirr Htr Hneg]. induction 1 as [|y l Hl IH Hhd]; simpl.
  - repeat constructor.
  - destruct (less x y) eqn:E.
    + constructor; [now constructor|]. constructor.
      destruct (less y x) eqn:E'; [|reflexivity].
      rewrite <- (Hirr x). symmetry. now apply (Htr x y x).
    + constructor; [assumption|].
      destruct Hhd as [|z l Hz]; simpl; [now constructor|].
      destruct (less x z); now constructor.
Qed.

Lemma Std_Sort_sorted less l :
  transitive_ordering less ->
  Sorted (fun a b => less b a = false) (Std.Sort less l).
Proof.
  intros H. induction l as [|x l IH]; simpl; [constructor|].
  now apply Std_insert_sorted.
Qed.

Lemma Std_contract : sort_contract Std.lib.
Proof.
  constructor; simpl.
  - apply Std_Sort_perm.
  - apply Std_Sort_sorted.
Qed.

(** The scenario of the specification: the two forks and the application
    are left out, and the rest comes by falling import count. *)
Example scenario_output :
  map Name (snd (filter_rank Std.lib default_flags "foo" (example_world []) scenario_hits))
  = ["delta"; "alpha"].
Proof. vm_compute. reflexivity. Qed.

Lemma C2_witness :
  StronglySorted (fun a b => ranking_key default_flags a >= ranking_key default_flags b)
                 (snd (filter_rank Std.lib default_flags "foo" (example_world []) scenario_hits)).
Proof.
  apply (C2_output_non_increasing Std.lib default_flags "foo" (example_world []) scenario_hits).
  exact Std_contract.
Defined.

Lemma C8_witness :
  len (snd (filter_rank Std.lib default_flags "foo" (example_world []) scenario_hits)) <= 10.
Proof.
  refine (proj1 (C8_output_length_bounded Std.lib default_flags "foo" (example_world [])
                   scenario_hits Std_contract) _).
  simpl. lia.
Defined.

(** ** The selector *)

Section Selector.
Variable L : golib.
Variable n : Z.

Lemma selector_read_error (partial : string) (rest : list read_result) :
  selector L n (ReadErr partial :: rest) =
  ((prompt ++ [Stdout "error reading from stdin"] ++ fst (selector L n rest))%list,
   snd (selector L n rest)).
Proof. simpl. destruct (selector L n rest). reflexivity. Qed.

Lemma selector_declined (l : string) (rest : list read_result) :
  strconv_Atoi L (strings_TrimSpace L l) = None ->
  selector L n (Line l :: rest) = (prompt, Declined).
Proof. intros H. simpl. now rewrite H. Qed.

Lemma selector_in_range (l : string) (k : Z) (rest : list read_result) :
  strconv_Atoi L (strings_TrimSpace L l) = Some k ->
  1 <= k <= n ->
  selector L n (Line l :: rest) = (prompt, Selected k rest).
Proof.
  intros H Hk. simpl. rewrite H.
  replace (k <? 1) with false by (symmetry; apply Z.ltb_ge; lia).
  replace (k >? n) with false by (symmetry; rewrite Z.gtb_ltb; apply Z.ltb_ge; lia).
  reflexivity.
Qed.

Lemma selector_out_of_range (l : string) (k : Z) (rest : list read_result) :
  strconv_Atoi L (strings_TrimSpace L l) = Some k ->
  k < 1 \/ k > n ->
  selector L n (Line l :: rest) =
  ((prompt ++ [Stdout ("No entry for " ++ Go.itoa k ++ nl)] ++ fst (selector L n rest))%list,
   snd (selector L n rest)).
Proof.
  intros H Hk. simpl. rewrite H.
  replace ((k <? 1) || (k >? n)) with true.
  - destruct (selector L n rest). reflexivity.
  - symmetry. apply orb_true_iff. rewrite Z.gtb_ltb, !Z.ltb_lt. lia.
Qed.

(** The reads that make the selector prompt again are passed over. *)
Lemma selector_skip (pre rest : list read_result) :
  Forall (reprompts L n) pre ->
  snd (selector L n (pre ++ rest)) = snd (selector L n rest).
Proof.
  induction 1 as [|r pre Hr _ IH]; [reflexivity|].
  destruct r as [l|partial]; simpl app.
  - destruct Hr as (k & Hk & Hout).
    rewrite (selector_out_of_range l k _ Hk Hout). exact IH.
  - rewrite selector_read_error. exact IH.
Qed.

(** The selector starts no process. *)
Lemma selector_no_spawn (input : list read_result) :
  existsb is_spawn (fst (selector L n input)) = false.
Proof.
  induction input as [|r input IH]; [reflexivity|].
  destruct r as [l|partial].
  - simpl. destruct (strconv_Atoi L (strings_TrimSpace L l)) as [k|]; [|reflexivity].
    destruct ((k <? 1) || (k >? n)); [|reflexivity].
    destruct (selector L n input). simpl in *. exact IH.
  - rewrite selector_read_error. simpl. exact IH.
Qed.

(** What it selects is an index of the table, and the reads left over are
    fewer than the reads it was given. *)
Lemma selector_Selected (input : list read_result) (k : Z) (rest : list read_result) :
  snd (selector L n input) = Selected k rest ->
  1 <= k <= n /\ (List.length rest < List.length input)%nat.
Proof.
  induction input as [|r input IH]; [discriminate|].
  destruct r as [l|partial].
  - simpl. destruct (strconv_Atoi L (strings_TrimSpace L l)) as [k'|]; [|discriminate].
    destruct (Z.ltb_spec k' 1); simpl.
    + destruct (selector L n input). simpl in *. intros H'. apply IH in H'. lia.
    + destruct (Z.gtb_spec k' n).
      * destruct (selector L n input). simpl in *. intros H'. apply IH in H'. lia.
      * simpl. intros H'. injection H' as <- <-. simpl. lia.
  - rewrite selector_read_error. simpl. intros H'. apply IH in H'. lia.
Qed.

(** A line that holds the integer [k] is accepted exactly when [k] is an
    index of the table. *)
Lemma selector_accepts_iff (l : string) (k : Z) (rest : list read_result) :
  strconv_Atoi L (strings_TrimSpace L l) = Some k ->
  (snd (selector L n (Line l :: rest)) = Selected k rest <-> 1 <= k <= n).
Proof.
  intros H. split.
  - intros Hs. now apply selector_Selected in Hs.
  - intros Hk. now rewrite (selector_in_range l k rest H Hk).
Qed.

End Selector.

(** ** The run as a whole *)

Lemma existsb_app_false {A : Type} (t : A -> bool) (l l' : list A) :
  existsb t l = false -> existsb t l' = false -> existsb t (l ++ l') = false.
Proof. intros H H'. now rewrite existsb_app, H, H'. Qed.

Lemma queryGodoc_events L fields w q :
  fst (queryGodoc L fields w q) = [HttpGet ("https://api.godoc.org/search?q=" ++ url_QueryEscape L q)].
Proof. reflexivity. Qed.

Lemma rows_from_quiet f w (ps : list pack) : forall i,
  existsb is_spawn (rows_from f w i ps) = false
  /\ existsb is_read (rows_from f w i ps) = false.
Proof.
  induction ps as [|p ps IH]; intros i; [split; reflexivity|].
  simpl. unfold row_events. destruct (IH (i + 1)) as [H1 H2].
  destruct (showInstalled f); simpl; auto.
Qed.

(** Sorting and printing the table starts no process (other than the
    installed checks) and reads nothing. *)
Lemma filter_rank_quiet L f query w matches :
  existsb is_spawn (fst (filter_rank L f query w matches)) = false
  /\ existsb is_read (fst (filter_rank L f query w matches)) = false.
Proof.
  rewrite filter_rank_eq. cbn [fst].
  destruct (rows_from_quiet f w
              (take (room f []) (filter (keep f query) (sort_matches L f matches))) 0)
    as [H1 H2].
  split; simpl; rewrite existsb_app; [rewrite H1 | rewrite H2];
    destruct (showInstalled f); reflexivity.
Qed.

Lemma index_in_range {A : Type} (l : list A) (k : Z) :
  1 <= k <= len l ->
  exists x, index l (k - 1) = Some x /\ nth_error l (Z.to_nat (k - 1)) = Some x.
Proof.
  intros Hk. unfold index.
  replace (k - 1 <? 0) with false by (symmetry; apply Z.ltb_ge; lia).
  destruct (nth_error l (Z.to_nat (k - 1))) as [x|] eqn:E; [eauto|].
  apply nth_error_None in E. unfold len in Hk. lia.
Qed.

(** [run] from the query on, by the phases it goes through. *)
Lemma run_from_query_phases L fields goflags f query w matches :
  snd (queryGodoc L fields w query) = inl matches ->
  let e0 := fst (queryGodoc L fields w query) in
  let e1 := fst (filter_rank L f query w matches) in
  let packs := snd (filter_rank L f query w matches) in
  let e2 := fst (selector L (len packs) (stdin w)) in
  run_from_query L fields goflags f query w =
  if len packs =? 0 then ((e0 ++ e1 ++ [Stdout ("No matches." ++ nl)])%list, Exit 1)
  else match snd (selector L (len packs) (stdin w)) with
       | Declined => ((e0 ++ e1 ++ e2)%list, Exit 0)
       | Starved => ((e0 ++ e1 ++ e2)%list, Blocked)
       | Selected packN rest =>
           match index packs (packN - 1) with
           | None => ((e0 ++ e1 ++ e2)%list, Panic)
           | Some p =>
               ((e0 ++ e1 ++ e2 ++ fst (install w goflags (Path p) rest))%list,
                snd (install w goflags (Path p) rest))
           end
       end.
Proof.
  intros Hq. cbv zeta. unfold run_from_query.
  destruct (queryGodoc L fields w query) as [e0 r]. simpl in Hq. subst r. cbn [fst].
  destruct (filter_rank L f query w matches) as [e1 packs]. cbn [fst snd].
  destruct (len packs =? 0); [reflexivity|].
  destruct (selector L (len packs) (stdin w)) as [e2 s]. cbn [fst snd].
  destruct s as [packN rest| |]; try reflexivity.
  destruct (index packs (packN - 1)) as [p|]; [|reflexivity].
  destruct (install w goflags (Path p) rest). reflexivity.
Qed.

Lemma len_zero_iff {A : Type} (l : list A) : (len l =? 0) = true <-> l = [].
Proof.
  rewrite Z.eqb_eq. unfold len. destruct l; simpl; split; intros H;
    try reflexivity; try discriminate; lia.
Qed.

(** An unparsable line, reached through reads that only make the selector
    prompt again, ends the run with status 0 before any process is started.
    This holds for both versions of [run]. *)
Lemma run_from_query_declines L fields goflags f query w matches pre l rest :
  snd (queryGodoc L fields w query) = inl matches ->
  snd (filter_rank L f query w matches) <> [] ->
  stdin w = (pre ++ Line l :: rest)%list ->
  Forall (reprompts L (len (snd (filter_rank L f query w matches)))) pre ->
  strconv_Atoi L (strings_TrimSpace L l) = None ->
  snd (run_from_query L fields goflags f query w) = Exit 0
  /\ existsb is_spawn (fst (run_from_query L fields goflags f query w)) = false.
Proof.
  intros Hq Hne Hin Hpre Hl.
  rewrite (run_from_query_phases L fields goflags f query w matches Hq). cbv zeta.
  destruct (len (snd (filter_rank L f query w matches)) =? 0) eqn:E.
  - apply len_zero_iff in E. contradiction.
  - rewrite Hin, (selector_skip L _ pre _ Hpre), (selector_declined L _ l rest Hl).
    cbn [snd fst]. split; [reflexivity|].
    rewrite queryGodoc_events.
    apply (existsb_app_false is_spawn [_]); [reflexivity|].
    apply existsb_app_false; [apply filter_rank_quiet | apply selector_no_spawn].
Qed.

(** C5. When the selector reads a line that, once trimmed, is not an
    integer, the run returns 0 and the install process is never started,
    whatever the table holds and however many times the selector has prompted
    again before. *)
Theorem C5_unparsable_selection_exits_0 :
  forall (L : golib) (f : flags) (arg0 : string) (w : world) (matches : list pack)
         (pre : list read_result) (l : string) (rest : list read_result),
    arg0 <> "" ->
    snd (queryGodoc L Main.fields w arg0) = inl matches ->
    snd (filter_rank L f arg0 w matches) <> [] ->
    stdin w = (pre ++ Line l :: rest)%list ->
    Forall (reprompts L (len (snd (filter_rank L f arg0 w matches)))) pre ->
    strconv_Atoi L (strings_TrimSpace L l) = None ->
    snd (Main.run L f arg0 w) = Exit 0
    /\ existsb is_spawn (fst (Main.run L f arg0 w)) = false.
Proof.
  intros L f arg0 w matches pre l rest Ha Hq Hne Hin Hpre Hl.
  unfold Main.run. apply String.eqb_neq in Ha. rewrite Ha.
  now apply (run_from_query_declines L Main.fields _ f arg0 w matches pre l rest).
Qed.

(** The entry at position [j] of the table is written with index [j+1]. *)
Lemma rows_from_nth f w (ps : list pack) : forall i j p,
  nth_error ps j = Some p ->
  In (TabRow (i + Z.of_nat j + 1) (Stars p) (ImportCount p) (shown_path f w p) (Synopsis p))
     (rows_from f w i ps).
Proof.
  induction ps as [|q ps IH]; intros i j p Hj; [destruct j; discriminate|].
  simpl. apply in_or_app. destruct j as [|j]; simpl in Hj.
  - injection Hj as ->. left. unfold row_events. apply in_or_app. right.
    replace (i + Z.of_nat 0 + 1) with (i + 1) by lia. now left.
  - right. replace (i + Z.of_nat (S j) + 1) with (i + 1 + Z.of_nat j + 1) by lia.
    now apply IH.
Qed.

Lemma filter_rank_row L f query w matches k p :
  1 <= k ->
  nth_error (snd (filter_rank L f query w matches)) (Z.to_nat (k - 1)) = Some p ->
  In (TabRow k (Stars p) (ImportCount p) (shown_path f w p) (Synopsis p))
     (fst (filter_rank L f query w matches)).
Proof.
  rewrite filter_rank_eq. cbn [fst snd]. intros Hk Hn.
  apply in_or_app. right. apply in_or_app. left.
  pose proof (rows_from_nth f w _ 0 _ _ Hn) as H.
  replace (0 + Z.of_nat (Z.to_nat (k - 1)) + 1) with k in H by lia.
  exact H.
Qed.

(** C6. A line that holds the integer [k] is accepted exactly when
    [1 <= k <= n], [n] being the number of entries displayed. When [k] is out
    of range the selector prints [No entry for k] and goes round the loop
    again. When it is in range, the run goes on to install the path of the
    entry displayed with index [k]. *)
Theorem C6_selection_within_table :
  forall (L : golib) (n : Z) (l : string) (k : Z) (rest : list read_result),
    strconv_Atoi L (strings_TrimSpace L l) = Some k ->
    (snd (selector L n (Line l :: rest)) = Selected k rest <-> 1 <= k <= n)
    /\ (~ 1 <= k <= n ->
        selector L n (Line l :: rest) =
        ((prompt ++ [Stdout ("No entry for " ++ Go.itoa k ++ nl)]
            ++ fst (selector L n rest))%list,
         snd (selector L n rest)))
    /\ (forall (f : flags) (arg0 : string) (w : world) (matches : list pack)
               (pre : list read_result),
          arg0 <> "" ->
          snd (queryGodoc L Main.fields w arg0) = inl matches ->
          n = len (snd (filter_rank L f arg0 w matches)) ->
          stdin w = (pre ++ Line l :: rest)%list ->
          Forall (reprompts L n) pre ->
          1 <= k <= n ->
          exists p,
            nth_error (snd (filter_rank L f arg0 w matches)) (Z.to_nat (k - 1)) = Some p
            /\ In (TabRow k (Stars p) (ImportCount p) (shown_path f w p) (Synopsis p))
                  (fst (filter_rank L f arg0 w matches))
            /\ Main.run L f arg0 w =
               ((fst (queryGodoc L Main.fields w arg0)
                   ++ fst (filter_rank L f arg0 w matches)
                   ++ fst (selector L n (stdin w))
                   ++ fst (install w (Main.goflags_in_force f) (Path p) rest))%list,
                snd (install w (Main.goflags_in_force f) (Path p) rest))).
Proof.
  intros L n l k rest Hl. split; [|split].
  - now apply selector_accepts_iff.
  - intros Hk. apply selector_out_of_range; [assumption | lia].
  - intros f arg0 w matches pre Ha Hq Hn Hin Hpre Hk.
    destruct (index_in_range (snd (filter_rank L f arg0 w matches)) k) as (p & Hi & Hp);
      [now rewrite <- Hn|].
    exists p. split; [exact Hp|]. split; [apply filter_rank_row; [lia | exact Hp]|].
    unfold Main.run. apply String.eqb_neq in Ha. rewrite Ha.
    rewrite (run_from_query_phases L Main.fields _ f arg0 w matches Hq). cbv zeta.
    rewrite <- Hn.
    destruct (n =? 0) eqn:E; [apply Z.eqb_eq in E; lia|].
    replace (snd (selector L n (stdin w))) with (Selected k rest).
    + rewrite Hi. reflexivity.
    + rewrite Hin, (selector_skip L n pre _ Hpre).
      now rewrite (selector_in_range L n l k rest Hl Hk).
Qed.

(** C7. When nothing passes the filter, the run prints the header of the
    table, the legend when the installed check is on, and [No matches.] once;
    it returns 1 without having prompted, read a line or started a process. *)
Theorem C7_no_matches_exits_1 :
  forall (L : golib) (f : flags) (arg0 : string) (w : world) (matches : list pack),
    arg0 <> "" ->
    snd (queryGodoc L Main.fields w arg0) = inl matches ->
    snd (filter_rank L f arg0 w matches) = [] ->
    Main.run L f arg0 w =
    (([HttpGet ("https://api.godoc.org/search?q=" ++ url_QueryEscape L arg0);
       TabHeader; TabFlush]
        ++ (if showInstalled f then [Stdout ("* = installed" ++ nl)] else [])
        ++ [Stdout ("No matches." ++ nl)])%list,
     Exit 1)
    /\ ~ In (Stdout "Install Package #: ") (fst (Main.run L f arg0 w))
    /\ existsb is_read (fst (Main.run L f arg0 w)) = false
    /\ existsb is_spawn (fst (Main.run L f arg0 w)) = false.
Proof.
  intros L f arg0 w matches Ha Hq Hempty.
  assert (E : Main.run L f arg0 w =
              (([HttpGet ("https://api.godoc.org/search?q=" ++ url_QueryEscape L arg0);
                 TabHeader; TabFlush]
                  ++ (if showInstalled f then [Stdout ("* = installed" ++ nl)] else [])
                  ++ [Stdout ("No matches." ++ nl)])%list,
               Exit 1)).
  { unfold Main.run. apply String.eqb_neq in Ha. rewrite Ha.
    rewrite (run_from_query_phases L Main.fields _ f arg0 w matches Hq). cbv zeta.
    rewrite Hempty. cbn [len List.length Z.of_nat Z.eqb].
    rewrite queryGodoc_events.
    rewrite filter_rank_eq in Hempty |- *. cbn [fst snd] in Hempty |- *.
    rewrite Hempty. destruct (showInstalled f); reflexivity. }
  rewrite E. cbn [fst].
  destruct (showInstalled f); simpl; repeat split; try reflexivity;
    intros H; repeat (destruct H as [H | H]; try discriminate); assumption.
Qed.

(** ** The installer *)

Lemma install_spawn_args w goflags importPath input bin args :
  In (Spawn bin args) (fst (install w goflags importPath input)) ->
  args = install_args goflags importPath.
Proof.
  unfold install. destruct (exec_LookPath w "go") as [goBin|].
  - destruct input as [|r rest].
    + simpl. intros H. repeat (destruct H as [H | H]; try discriminate). contradiction.
    + destruct (cmd_Run w goBin (install_args goflags importPath)); simpl; intros H;
        repeat (destruct H as [H | H]; try discriminate); try contradiction;
        now injection H.
  - simpl. intros H. repeat (destruct H as [H | H]; try discriminate). contradiction.
Qed.

Lemma install_no_panic w goflags importPath input :
  snd (install w goflags importPath input) <> Panic.
Proof.
  unfold install. destruct (exec_LookPath w "go") as [goBin|]; [|discriminate].
  destruct input; [discriminate|].
  destruct (cmd_Run w goBin (install_args goflags importPath)); discriminate.
Qed.

(** C10. Once the [go] binary is found, what the confirmation read returns
    plays no part: for every result of that read, a line (empty or not) or an
    error such as end of input, and whatever is left on standard input, the
    run is the same; it reads once, starts the install process, and ends
    according to that process alone. *)
Theorem C10_confirmation_read_ignored :
  forall (w : world) (goflags : list string) (importPath goBin : string)
         (r r' : read_result) (rest rest' : list read_result),
    exec_LookPath w "go" = Some goBin ->
    install w goflags importPath (r :: rest) = install w goflags importPath (r' :: rest')
    /\ In (Spawn goBin (install_args goflags importPath))
          (fst (install w goflags importPath (r :: rest)))
    /\ filter is_read (fst (install w goflags importPath (r :: rest))) = [ReadString]
    /\ snd (install w goflags importPath (r :: rest)) =
       match cmd_Run w goBin (install_args goflags importPath) with
       | None => Exit 0
       | Some _ => Exit 1
       end.
Proof.
  intros w goflags importPath goBin r r' rest rest' Hgo.
  unfold install. rewrite Hgo.
  destruct (cmd_Run w goBin (install_args goflags importPath)); simpl; auto 10.
Qed.




(** [run] never indexes [packs] out of range. *)
Lemma Main_run_no_panic L f arg0 w : snd (Main.run L f arg0 w) <> Panic.
Proof.
  unfold Main.run. destruct (arg0 =? "")%string; [discriminate|].
  destruct (snd (queryGodoc L Main.fields w arg0)) as [matches|err] eqn:Hq.
  - rewrite (run_from_query_phases L Main.fields _ f arg0 w matches Hq). cbv zeta.
    destruct (len (snd (filter_rank L f arg0 w matches)) =? 0); [discriminate|].
    destruct (snd (selector L _ (stdin w))) as [k rest| |] eqn:Hsel; try discriminate.
    apply selector_Selected in Hsel. destruct Hsel as [Hk _].
    destruct (index_in_range _ k Hk) as (p & -> & _).
    apply install_no_panic.
  - unfold run_from_query. destruct (queryGodoc L Main.fields w arg0) as [e0 r].
    simpl in Hq. subst r. discriminate.
Qed.

(** ** Decoding the response *)

(** In both versions of the struct the field [ImportCount] is registered
    under its Go name, because the tag yields no [json] entry. *)
Lemma ImportCount_tag_has_no_json_entry :
  StructTag.Lookup ImportCount_tag_main "json" = None
  /\ StructTag.Lookup ImportCount_tag_other "json" = None.
Proof. split; vm_compute; reflexivity. Qed.

Lemma import_count_matches_no_field :
  Json.find_field Main.fields "import_count" = None
  /\ Json.find_field Other.fields "import_count" = None.
Proof. split; vm_compute; reflexivity. Qed.

Lemma ImportCount_key_matches_field :
  option_map Json.go_name (Json.find_field Main.fields "ImportCount") = Some "ImportCount"
  /\ option_map Json.go_name (Json.find_field Main.fields "importcount") = Some "ImportCount"
  /\ option_map Json.go_name (Json.find_field Other.fields "ImportCount") = Some "ImportCount".
Proof. repeat split; vm_compute; reflexivity. Qed.

Lemma decode_members_without_import_count L fields (ms : list (string * json)) :
  Json.find_field fields "import_count" = None ->
  forall p,
    Json.decode_members L fields (filter not_import_count ms) p
    = Json.decode_members L fields ms p.
Proof.
  intros Hnone. induction ms as [|[k v] ms IH]; intros p; [reflexivity|].
  unfold not_import_count at 1. simpl.
  destruct (String.eqb_spec k "import_count") as [->|Hk]; simpl.
  - rewrite Hnone. apply IH.
  - destruct (Json.find_field fields k) as [fd|]; [|apply IH].
    destruct (Json.decode_field L fd v p); [apply IH | reflexivity].
Qed.

(** C4. What the code does with the key [import_count]: in both versions
    of the struct a member of that name is skipped, whatever its value, and
    the field [ImportCount] keeps the value it had. On the response with
    [import_count] 7 the decoded import count is 0; the count is taken from a
    member named [ImportCount]. *)
Theorem C4_import_count_key_is_skipped :
  (forall (L : golib) (ms : list (string * json)) (p : pack),
      Json.decode_members L Main.fields ms p
      = Json.decode_members L Main.fields (filter not_import_count ms) p
      /\ Json.decode_members L Other.fields ms p
         = Json.decode_members L Other.fields (filter not_import_count ms) p)
  /\ Json.Decode Std.lib Main.fields import_count_body
     = Ok [mkPack "" "example.com/foo" 0 "" false 0 0%float]
  /\ Json.Decode Std.lib Other.fields import_count_body
     = Ok [mkPack "" "example.com/foo" 0 "" false 0 0%float]
  /\ Json.Decode Std.lib Main.fields ImportCount_body
     = Ok [mkPack "" "example.com/foo" 7 "" false 0 0%float].
Proof.
  split; [|repeat split; vm_compute; reflexivity].
  intros L ms p. split; symmetry; apply decode_members_without_import_count;
    apply import_count_matches_no_field.
Qed.

(** ** The other version of [run] *)

(** [parseArgs] succeeds only on a command line of one argument, the
    query, and then hands on no flags and no arguments for [go get]. *)
Lemma Other_parseArgs_Parsed (os_Args : list string) query goArgs localArgs :
  Other.parseArgs os_Args = Other.Parsed query goArgs localArgs ->
  (exists prog, os_Args = [prog; query]) /\ goArgs = [] /\ localArgs = [].
Proof.
  unfold Other.parseArgs.
  destruct os_Args as [|a [|b [|c rest]]].
  - vm_compute. discriminate.
  - vm_compute. discriminate.
  - vm_compute. intros H. injection H as <- <- <-. eauto.
  - replace (len (a :: b :: c :: rest) >? 2) with true; [discriminate|].
    symmetry. apply Z.gtb_lt. unfold len. simpl List.length. lia.
Qed.

(** So the install command of that version carries no pass-through
    argument at all. *)
Lemma Other_run_install_args L Parse prog query w :
  Parse [] = Some (default_flags, false) ->
  Other.run L Parse [prog; query] w = run_from_query L Other.fields [] default_flags query w
  /\ forall importPath, install_args [] importPath = ["get"; importPath].
Proof.
  intros HP. split; [|reflexivity].
  unfold Other.run.
  replace (Other.parseArgs [prog; query]) with (Other.Parsed query [] []) by reflexivity.
  now rewrite HP.
Qed.

(** [stringsFlag.Set] never leaves a nil slice, so the default applies only
    when the flag is absent. *)
Lemma stringsFlag_Set_not_nil (s : string) : fst (Main.stringsFlag_Set s) <> None.
Proof.
  unfold Main.stringsFlag_Set. destruct (Main.splitQuotedFields s); discriminate.
Qed.

(** ** The examples of the specification *)

(** What the example response decodes to. *)
Example example_world_matches :
  snd (queryGodoc Std.lib Main.fields (example_world []) "foo") = inl example_matches.
Proof. vm_compute. reflexivity. Qed.

(** Feeding [abc] ends the run with status 0 and starts no process. *)
Example selector_abc :
  Main.run Std.lib default_flags "foo" (example_world [Line ("abc" ++ nl)])
  = ([HttpGet "https://api.godoc.org/search?q=foo"; TabHeader;
      TabRow 1 5 9 "example.com/foobar" ""; TabRow 2 3 0 "example.com/foo" "";
      TabFlush; Stdout "Install Package #: "; ReadString],
     Exit 0).
Proof. vm_compute. reflexivity. Qed.

(** Feeding [0] and then [1] to a table of one entry prompts twice and
    selects the entry. *)
Example selector_0_then_1 :
  selector Std.lib 1 [Line ("0" ++ nl); Line ("1" ++ nl)]
  = ((prompt ++ [Stdout ("No entry for 0" ++ nl)] ++ prompt)%list, Selected 1 []).
Proof. vm_compute. reflexivity. Qed.

(** Feeding [5] to a table of three entries prompts again. *)
Example selector_5_of_3 (rest : list read_result) :
  selector Std.lib 3 (Line ("5" ++ nl) :: rest)
  = ((prompt ++ [Stdout ("No entry for 5" ++ nl)] ++ fst (selector Std.lib 3 rest))%list,
     snd (selector Std.lib 3 rest)).
Proof.
  apply (selector_out_of_range Std.lib 3 ("5" ++ nl) 5 rest); [vm_compute; reflexivity | lia].
Qed.

(** A last line without its line feed comes with the error of the end of
    input, and is not looked at: the selector reports the error and prompts
    again. *)
Example selector_unterminated_line :
  selector Std.lib 1 [ReadErr "abc"]
  = ((prompt ++ [Stdout "error reading from stdin"] ++ prompt)%list, Starved).
Proof. reflexivity. Qed.

(** A whole run: [0] is refused, [2] selects the second row, the
    confirmation is an end of input, and [go get -u -v] is started. *)
Example run_selects_second :
  Main.run Std.lib default_flags "foo"
           (example_world [Line ("0" ++ nl); Line (" 2 " ++ nl); ReadErr ""])
  = ([HttpGet "https://api.godoc.org/search?q=foo"; TabHeader;
      TabRow 1 5 9 "example.com/foobar" ""; TabRow 2 3 0 "example.com/foo" "";
      TabFlush;
      Stdout "Install Package #: "; ReadString; Stdout ("No entry for 0" ++ nl);
      Stdout "Install Package #: "; ReadString;
      Stdout ("Installing example.com/foo" ++ nl); LookPath "go";
      Stdout ("Install command: /usr/bin/go get -u -v example.com/foo" ++ nl);
      Stdout ("Press enter to continue..." ++ nl); ReadString;
      Spawn "/usr/bin/go" ["get"; "-u"; "-v"; "example.com/foo"]],
     Exit 0).
Proof. vm_compute. reflexivity. Qed.

Lemma C5_witness :
  snd (Main.run Std.lib default_flags "foo"
         (example_world [Line ("0" ++ nl); ReadErr ""; Line ("abc" ++ nl)])) = Exit 0
  /\ existsb is_spawn
       (fst (Main.run Std.lib default_flags "foo"
               (example_world [Line ("0" ++ nl); ReadErr ""; Line ("abc" ++ nl)]))) = false.
Proof.
  apply (C5_unparsable_selection_exits_0 Std.lib default_flags "foo"
           (example_world [Line ("0" ++ nl); ReadErr ""; Line ("abc" ++ nl)])
           example_matches [Line ("0" ++ nl); ReadErr ""] ("abc" ++ nl) []).
  - discriminate.
  - vm_compute. reflexivity.
  - vm_compute. discriminate.
  - reflexivity.
  - constructor; [|constructor; [exact I | constructor]].
    exists 0. split; [vm_compute; reflexivity | lia].
  - vm_compute. reflexivity.
Defined.

Lemma C6_witness :
  snd (selector Std.lib 3 [Line (" 2 " ++ nl); Line nl]) = Selected 2 [Line nl]
  <-> 1 <= 2 <= 3.
Proof.
  refine (proj1 (C6_selection_within_table Std.lib 3 (" 2 " ++ nl) 2 [Line nl] _)).
  vm_compute. reflexivity.
Defined.

Lemma C7_witness :
  Main.run Std.lib default_flags "zzz" (example_world [Line ("1" ++ nl)])
  = ([HttpGet "https://api.godoc.org/search?q=zzz"; TabHeader; TabFlush;
      Stdout ("No matches." ++ nl)],
     Exit 1).
Proof.
  refine (proj1 (C7_no_matches_exits_1 Std.lib default_flags "zzz"
                   (example_world [Line ("1" ++ nl)]) example_matches _ _ _)).
  - discriminate.
  - vm_compute. reflexivity.
  - vm_compute. reflexivity.
Defined.

Lemma C10_witness :
  install (example_world []) ["-u"; "-v"] "example.com/foo" [Line nl]
  = install (example_world []) ["-u"; "-v"] "example.com/foo" [ReadErr ""; Line "x"].
Proof.
  refine (proj1 (C10_confirmation_read_ignored (example_world []) ["-u"; "-v"]
                   "example.com/foo" "/usr/bin/go" (Line nl) (ReadErr "") [] [Line "x"] _)).
  reflexivity.
Defined.

(** A run of digits beyond 64 bits is not an integer for [strconv.Atoi]:
    such a line ends the run like any other unparsable line. *)
Example Atoi_out_of_int_range :
  Std.Atoi "99999999999999999999" = None
  /\ Std.Atoi "9223372036854775807" = Some 9223372036854775807
  /\ Std.Atoi "-0012" = Some (-12)
  /\ Std.Atoi "+" = None
  /\ Std.Atoi "1 2" = None.
Proof. repeat split; vm_compute; reflexivity. Qed.

(** * The rest of the code *)

(** ** [splitQuotedFields] and the flag [-goflags] *)

Lemma string_app_nil_r (s : string) : s ++ "" = s.
Proof. induction s as [|c s IH]; simpl; [reflexivity | now rewrite IH]. Qed.

Lemma string_app_assoc (a b c : string) : (a ++ b) ++ c = a ++ b ++ c.
Proof. induction a as [|x a IH]; simpl; [reflexivity | now rewrite IH]. Qed.

Lemma snoc_app (acc : string) (c : ascii) (r : string) : snoc acc c ++ r = acc ++ String c r.
Proof. unfold snoc. now rewrite string_app_assoc. Qed.

(** The fields already found are only ever extended. *)
Lemma split_from_acc (s : string) : forall st f,
  Main.split_from st s f =
  match Main.split_from st s [] with
  | inl fs => Ok (f ++ fs)%list
  | inr e => Err e
  end.
Proof.
  induction s as [|c s IH]; intros st f.
  - destruct st; simpl; unfold Ok; rewrite ?app_nil_r; reflexivity.
  - destruct st as [|q acc|acc]; simpl.
    + destruct (Main.isSpaceByte c); [apply IH|].
      destruct (Ascii.eqb c dquote || Ascii.eqb c "'"); apply IH.
    + destruct (Ascii.eqb c q); [|apply IH].
      rewrite (IH Main.Between (f ++ [acc])%list), (IH Main.Between [acc]).
      destruct (Main.split_from Main.Between s []); [|reflexivity].
      unfold Ok. now rewrite <- app_assoc.
    + destruct (Main.isSpaceByte c); [|apply IH].
      rewrite (IH Main.Between (f ++ [acc])%list), (IH Main.Between [acc]).
      destruct (Main.split_from Main.Between s []); [|reflexivity].
      unfold Ok. now rewrite <- app_assoc.
Qed.

Lemma split_plain_run (s : string) : forall acc t f,
  no_space s = true ->
  Main.split_from (Main.InPlain acc) (s ++ t) f = Main.split_from (Main.InPlain (acc ++ s)) t f.
Proof.
  induction s as [|c s IH]; intros acc t f Hs; simpl.
  - now rewrite string_app_nil_r.
  - unfold no_space in Hs. simpl in Hs. apply andb_prop in Hs. destruct Hs as [Hc Hs].
    apply negb_true_iff in Hc. rewrite Hc, (IH _ _ _ Hs), snoc_app. reflexivity.
Qed.

Lemma split_plain_field (fld t : string) (f : list string) :
  plain_field fld ->
  Main.split_from Main.Between (fld ++ t) f = Main.split_from (Main.InPlain fld) t f.
Proof.
  intros [Hq Hs]. destruct fld as [|c r]; [contradiction|].
  unfold no_space in Hs. simpl in Hs. apply andb_prop in Hs. destruct Hs as [Hc Hs].
  apply negb_true_iff in Hc. unfold is_quote in Hq. simpl. rewrite Hc, Hq.
  now rewrite (split_plain_run r (String c "") t f Hs).
Qed.

Lemma split_join (fields : list string) : forall f,
  Forall plain_field fields ->
  Main.split_from Main.Between (Go.Join fields " ") f = Ok (f ++ fields)%list.
Proof.
  unfold Go.Join.
  induction fields as [|x fields IH]; intros f Hall.
  - simpl. now rewrite app_nil_r.
  - apply Forall_cons_iff in Hall. destruct Hall as [Hx Hall].
    destruct fields as [|y fields].
    + simpl. rewrite <- (string_app_nil_r x) at 1.
      now rewrite (split_plain_field x "" f Hx).
    + change (String.concat " " (x :: y :: fields))
        with (x ++ String " " (String.concat " " (y :: fields))).
      rewrite (split_plain_field x _ f Hx). simpl Main.split_from.
      rewrite (IH _ Hall), <- app_assoc. reflexivity.
Qed.

(** X1. Joining fields with single spaces and splitting the result gives
    the fields back, when each field is not empty, holds no space byte and
    does not open with a quote. *)
Theorem X1_splitQuotedFields_of_Join :
  forall fields : list string,
    Forall plain_field fields ->
    Main.splitQuotedFields (Go.Join fields " ") = Ok fields.
Proof.
  intros fields H. unfold Main.splitQuotedFields. now rewrite (split_join fields [] H).
Qed.

Lemma X1_witness :
  Main.splitQuotedFields (Go.Join ["-u"; "-v"; "-ldflags=-s"] " ") = Ok ["-u"; "-v"; "-ldflags=-s"].
Proof.
  apply (X1_splitQuotedFields_of_Join ["-u"; "-v"; "-ldflags=-s"]).
  repeat constructor.
Defined.




Lemma concat_nil_cons (x : string) (xs : list string) :
  String.concat "" (x :: xs) = x ++ String.concat "" xs.
Proof.
  destruct xs as [|y xs]; simpl; [now rewrite string_app_nil_r | reflexivity].
Qed.

Lemma no_space_snoc (acc : string) (c : ascii) :
  no_space acc = true -> Main.isSpaceByte c = false -> no_space (snoc acc c) = true.
Proof.
  unfold no_space, snoc. intros Ha Hc.
  induction acc as [|a acc IH]; simpl in *.
  - now rewrite Hc.
  - apply andb_prop in Ha. destruct Ha as [Ha1 Ha2]. now rewrite Ha1, IH.
Qed.

Lemma snoc_not_empty (acc : string) (c : ascii) : snoc acc c <> "".
Proof. destruct acc; discriminate. Qed.

(** On a string without quotes the scanner, between fields or inside a
    plain field, ends well; the fields are not empty and free of spaces,
    and put end to end they are the bytes read that are not spaces. *)
Lemma split_quote_free (s : string) :
  quote_free s = true ->
  (exists fs, Main.split_from Main.Between s [] = Ok fs
              /\ Forall (fun fld => fld <> "" /\ no_space fld = true) fs
              /\ String.concat "" fs = strip_spaces s)
  /\ (forall acc, acc <> "" -> no_space acc = true ->
        exists fs, Main.split_from (Main.InPlain acc) s [] = Ok fs
                   /\ Forall (fun fld => fld <> "" /\ no_space fld = true) fs
                   /\ String.concat "" fs = acc ++ strip_spaces s).
Proof.
  induction s as [|c s IH]; intros Hq.
  - split.
    + exists []. repeat split; constructor.
    + intros acc Ha Hs. exists [acc]. repeat split; [|simpl; now rewrite string_app_nil_r].
      now repeat constructor.
  - unfold quote_free in Hq. simpl in Hq. apply andb_prop in Hq. destruct Hq as [Hc Hq].
    apply negb_true_iff in Hc. unfold is_quote in Hc.
    destruct (IH Hq) as [(fsB & HB & HBg & HBc) HP].
    assert (Hplain : forall acc, acc <> "" -> no_space acc = true ->
              Main.isSpaceByte c = false ->
              exists fs, Main.split_from (Main.InPlain (snoc acc c)) s [] = Ok fs
                         /\ Forall (fun fld => fld <> "" /\ no_space fld = true) fs
                         /\ String.concat "" fs = acc ++ String c (strip_spaces s)).
    { intros acc Ha Hs Hsp.
      destruct (HP (snoc acc c) (snoc_not_empty acc c) (no_space_snoc acc c Hs Hsp))
        as (fs & H1 & H2 & H3).
      exists fs. repeat split; try assumption. now rewrite H3, snoc_app. }
    split.
    + simpl. rewrite Hc. destruct (Main.isSpaceByte c) eqn:Hsp.
      * exists fsB. now repeat split.
      * destruct (HP (String c "") ltac:(discriminate)) as (fs & H1 & H2 & H3).
        { unfold no_space. simpl. now rewrite Hsp. }
        exists fs. now repeat split.
    + intros acc Ha Hs. simpl. destruct (Main.isSpaceByte c) eqn:Hsp.
      * rewrite (split_from_acc s Main.Between [acc]), HB.
        exists (acc :: fsB). repeat split.
        -- constructor; [now split | assumption].
        -- now rewrite concat_nil_cons, HBc.
      * now apply Hplain.
Qed.

(** X3. On a string that holds no quote, [splitQuotedFields] never fails;
    no field it returns is empty or holds a space byte, and the fields put end
    to end are the string without its space bytes. In particular an empty or
    blank string has no fields. *)
Theorem X3_splitQuotedFields_quote_free :
  forall s : string,
    quote_free s = true ->
    exists fs : list string,
      Main.splitQuotedFields s = Ok fs
      /\ Forall (fun fld => fld <> "" /\ no_space fld = true) fs
      /\ String.concat "" fs = strip_spaces s.
Proof.
  intros s H. exact (proj1 (split_quote_free s H)).
Qed.

Lemma X3_witness :
  exists fs : list string,
    Main.splitQuotedFields "  -u   -v " = Ok fs
    /\ Forall (fun fld => fld <> "" /\ no_space fld = true) fs
    /\ String.concat "" fs = strip_spaces "  -u   -v ".
Proof.
  apply (X3_splitQuotedFields_quote_free "  -u   -v "). reflexivity.
Defined.

(** X4. After [-goflags s] with a value that splits into [flds], the
    install command is [get], then [flds], then the path: the default [-u -v]
    is not added, not even when [flds] is empty. *)
Theorem X4_goflags_replace_default :
  forall (f : flags) (s : string) (flds : list string) (importPath : string),
    Main.splitQuotedFields s = Ok flds ->
    goflags f = fst (Main.stringsFlag_Set s) ->
    install_args (Main.goflags_in_force f) importPath = ("get" :: flds ++ [importPath])%list.
Proof.
  intros f s flds importPath Hs Hf.
  unfold Main.goflags_in_force. rewrite Hf. unfold Main.stringsFlag_Set. rewrite Hs.
  reflexivity.
Qed.

Lemma X4_witness :
  install_args (Main.goflags_in_force (mkFlags 10 false false 1 0 false true (Some [])))
               "example.com/foo"
  = ["get"; "example.com/foo"].
Proof.
  apply (X4_goflags_replace_default
           (mkFlags 10 false false 1 0 false true (Some [])) "" [] "example.com/foo");
    reflexivity.
Defined.

(** ** What a run is made of *)

Lemma forallb_app_true {A : Type} (t : A -> bool) (l l' : list A) :
  forallb t l = true -> forallb t l' = true -> forallb t (l ++ l') = true.
Proof. intros H H'. now rewrite forallb_app, H, H'. Qed.

Lemma filter_none {A : Type} (kind t : A -> bool) (l : list A) :
  (forall x, kind x = true -> t x = false) ->
  forallb kind l = true -> filter t l = [].
Proof.
  intros Hk. induction l as [|x l IH]; simpl; [reflexivity|].
  intros H. apply andb_prop in H. destruct H as [Hx Hl].
  now rewrite (Hk x Hx), IH.
Qed.

Lemma rows_from_events f w (ps : list pack) : forall i,
  forallb table_event (rows_from f w i ps) = true.
Proof.
  induction ps as [|p ps IH]; intros i; [reflexivity|].
  simpl. unfold row_events. apply forallb_app_true; [|apply IH].
  destruct (showInstalled f); reflexivity.
Qed.

Lemma filter_rank_events L f query w matches :
  forallb table_event (fst (filter_rank L f query w matches)) = true.
Proof.
  rewrite filter_rank_eq. cbn [fst].
  apply (forallb_app_true table_event [TabHeader]); [reflexivity|].
  apply forallb_app_true; [apply rows_from_events|].
  destruct (showInstalled f); reflexivity.
Qed.

Lemma selector_events L n (input : list read_result) :
  forallb selector_event (fst (selector L n input)) = true.
Proof.
  induction input as [|r input IH]; [reflexivity|].
  destruct r as [l|partial].
  - simpl. destruct (strconv_Atoi L (strings_TrimSpace L l)) as [k|]; [|reflexivity].
    destruct ((k <? 1) || (k >? n)); [|reflexivity].
    destruct (selector L n input). simpl in *. exact IH.
  - rewrite selector_read_error. simpl. exact IH.
Qed.

Lemma install_events w goflags importPath input :
  forallb install_event (fst (install w goflags importPath input)) = true.
Proof.
  unfold install. destruct (exec_LookPath w "go") as [goBin|]; [|reflexivity].
  destruct input; [reflexivity|].
  destruct (cmd_Run w goBin (install_args goflags importPath)); reflexivity.
Qed.

Lemma run_from_query_error L fields goflags f query w err :
  snd (queryGodoc L fields w query) = inr err ->
  run_from_query L fields goflags f query w =
  ([HttpGet ("https://api.godoc.org/search?q=" ++ url_QueryEscape L query); PrintlnErr err],
   Exit 1).
Proof.
  intros Hq. unfold run_from_query.
  pose proof (queryGodoc_events L fields w query) as He.
  destruct (queryGodoc L fields w query) as [e0 r]. simpl in Hq, He. now subst.
Qed.

Lemma install_ending w goflags importPath input :
  snd (install w goflags importPath input) = Exit 0
  \/ snd (install w goflags importPath input) = Exit 1
  \/ snd (install w goflags importPath input) = Blocked.
Proof.
  unfold install. destruct (exec_LookPath w "go") as [goBin|]; [|auto].
  destruct input; [auto|].
  destruct (cmd_Run w goBin (install_args goflags importPath)); auto.
Qed.

(** The endings of [run] from the query on, for both versions. *)
Lemma run_from_query_ending L fields goflags f query w :
  snd (run_from_query L fields goflags f query w) = Exit 0
  \/ snd (run_from_query L fields goflags f query w) = Exit 1
  \/ snd (run_from_query L fields goflags f query w) = Blocked.
Proof.
  destruct (snd (queryGodoc L fields w query)) as [matches|err] eqn:Hq.
  - rewrite (run_from_query_phases L fields goflags f query w matches Hq). cbv zeta.
    destruct (len (snd (filter_rank L f query w matches)) =? 0); [auto|].
    destruct (snd (selector L _ (stdin w))) as [k rest| |] eqn:Hsel; auto.
    apply selector_Selected in Hsel. destruct Hsel as [Hk _].
    destruct (index_in_range _ k Hk) as (p & -> & _).
    apply install_ending.
  - rewrite (run_from_query_error L fields goflags f query w err Hq). auto.
Qed.

(** X5. [run] returns 0 or 1, or waits for input that the script does not
    hold; no run indexes the table out of range, whatever the flags, the
    response and the input are. *)
Theorem X5_run_status :
  forall (L : golib) (f : flags) (arg0 : string) (w : world),
    snd (Main.run L f arg0 w) = Exit 0
    \/ snd (Main.run L f arg0 w) = Exit 1
    \/ snd (Main.run L f arg0 w) = Blocked.
Proof.
  intros L f arg0 w. unfold Main.run.
  destruct (arg0 =? "")%string; [auto | apply run_from_query_ending].
Qed.

(** X6. When the search fails, [run] prints the error and returns 1 right
    after the request: no table, no prompt, no process. A response whose
    status is not 200 fails with [godoc: ] and the status text, and its body
    is not looked at. *)
Theorem X6_search_failure :
  forall (L : golib) (f : flags) (arg0 : string) (w : world),
    arg0 <> "" ->
    let url := "https://api.godoc.org/search?q=" ++ url_QueryEscape L arg0 in
    (forall err, snd (queryGodoc L Main.fields w arg0) = inr err ->
                 Main.run L f arg0 w = ([HttpGet url; PrintlnErr err], Exit 1))
    /\ (forall code status body,
          http_Get w url = HttpResp code status body -> code <> 200 ->
          Main.run L f arg0 w
          = ([HttpGet url; PrintlnErr (ErrNew ("godoc: " ++ status))], Exit 1))
    /\ (forall msg,
          http_Get w url = HttpFail msg ->
          Main.run L f arg0 w = ([HttpGet url; PrintlnErr (ErrTransport msg)], Exit 1)).
Proof.
  intros L f arg0 w Ha. cbv zeta.
  assert (Hrun : forall err, snd (queryGodoc L Main.fields w arg0) = inr err ->
            Main.run L f arg0 w
            = ([HttpGet ("https://api.godoc.org/search?q=" ++ url_QueryEscape L arg0);
                PrintlnErr err], Exit 1)).
  { intros err Hq. unfold Main.run. apply String.eqb_neq in Ha. rewrite Ha.
    now apply run_from_query_error. }
  split; [exact Hrun|]. split.
  - intros code status body Hget Hcode. apply Hrun.
    unfold queryGodoc. cbn [snd]. rewrite Hget.
    apply Z.eqb_neq in Hcode. now rewrite Hcode.
  - intros msg Hget. apply Hrun. unfold queryGodoc. cbn [snd]. now rewrite Hget.
Qed.

Lemma X6_witness :
  Main.run Std.lib default_flags "foo"
           (mkWorld (fun _ => HttpResp 503 "503 Service Unavailable" (inr JNull))
                    (fun _ => false) (fun _ => None) (fun _ _ => None) [])
  = ([HttpGet "https://api.godoc.org/search?q=foo";
      PrintlnErr (ErrNew "godoc: 503 Service Unavailable")], Exit 1).
Proof.
  refine (proj1 (proj2 (X6_search_failure Std.lib default_flags "foo"
            (mkWorld (fun _ => HttpResp 503 "503 Service Unavailable" (inr JNull))
                     (fun _ => false) (fun _ => None) (fun _ _ => None) []) _))
            503 "503 Service Unavailable" (inr JNull) _ _).
  - discriminate.
  - reflexivity.
  - discriminate.
Defined.

(** The three ways [run] goes from the query on: the search fails; or the
    run ends before the installer; or it ends in the installer, on the path
    of a displayed entry. *)
Lemma run_from_query_shape L fields goflags f query w :
  let url := "https://api.godoc.org/search?q=" ++ url_QueryEscape L query in
  let r := run_from_query L fields goflags f query w in
  (exists err, r = ([HttpGet url; PrintlnErr err], Exit 1))
  \/ (exists mid fin,
        forallb front_event mid = true
        /\ (fin = Exit 0 \/ fin = Exit 1 \/ fin = Blocked)
        /\ r = (HttpGet url :: mid, fin))
  \/ (exists mid matches p rest,
        forallb front_event mid = true
        /\ snd (queryGodoc L fields w query) = inl matches
        /\ In p (snd (filter_rank L f query w matches))
        /\ r = ((HttpGet url :: mid ++ fst (install w goflags (Path p) rest))%list,
                snd (install w goflags (Path p) rest))).
Proof.
  cbv zeta.
  destruct (snd (queryGodoc L fields w query)) as [matches|err] eqn:Hq.
  2: { left. exists err. now apply run_from_query_error. }
  right.
  rewrite (run_from_query_phases L fields goflags f query w matches Hq). cbv zeta.
  rewrite queryGodoc_events.
  assert (H1 : forallb front_event (fst (filter_rank L f query w matches)) = true).
  { pose proof (filter_rank_events L f query w matches) as H.
    rewrite forallb_forall in H |- *. intros e He. unfold front_event. now rewrite (H e He). }
  assert (H2 : forallb front_event
                 (fst (selector L (len (snd (filter_rank L f query w matches))) (stdin w)))
               = true).
  { pose proof (selector_events L (len (snd (filter_rank L f query w matches))) (stdin w))
      as H.
    rewrite forallb_forall in H |- *. intros e He. unfold front_event.
    rewrite (H e He). apply orb_true_r. }
  set (e1 := fst (filter_rank L f query w matches)) in *.
  set (packs := snd (filter_rank L f query w matches)) in *.
  set (e2 := fst (selector L (len packs) (stdin w))) in *.
  assert (H12 : forallb front_event (e1 ++ e2) = true) by now apply forallb_app_true.
  destruct (len packs =? 0).
  { left. exists (e1 ++ [Stdout ("No matches." ++ nl)])%list, (Exit 1).
    split; [apply forallb_app_true; [assumption | reflexivity]|]. split; auto. }
  destruct (snd (selector L (len packs) (stdin w))) as [k rest| |] eqn:Hsel.
  - apply selector_Selected in Hsel. destruct Hsel as [Hk _].
    destruct (index_in_range packs k Hk) as (p & -> & Hn).
    right. exists (e1 ++ e2)%list, matches, p, rest.
    split; [assumption|]. split; [reflexivity|]. split; [now apply nth_error_In in Hn|].
    simpl. now rewrite <- !app_assoc.
  - left. exists (e1 ++ e2)%list, (Exit 0). auto.
  - left. exists (e1 ++ e2)%list, Blocked. auto 6.
Qed.

Lemma front_not_http e : front_event e = true -> is_http e = false.
Proof. destruct e; simpl; trivial; discriminate. Qed.

Lemma front_not_spawn e : front_event e = true -> is_spawn e = false.
Proof. destruct e; simpl; trivial; discriminate. Qed.

Lemma install_not_http e : install_event e = true -> is_http e = false.
Proof. destruct e; simpl; trivial; discriminate. Qed.

(** X7. A run that has a search term sends one request, before anything
    else, to the search address with the escaped term; a run without one sends
    none. The request is never repeated, whatever the response is. *)
Theorem X7_one_request :
  forall (L : golib) (f : flags) (arg0 : string) (w : world),
    filter is_http (fst (Main.run L f arg0 w))
    = (if (arg0 =? "")%string then []
       else [HttpGet ("https://api.godoc.org/search?q=" ++ url_QueryEscape L arg0)])
    /\ (arg0 <> "" ->
        exists tail,
          fst (Main.run L f arg0 w)
          = HttpGet ("https://api.godoc.org/search?q=" ++ url_QueryEscape L arg0) :: tail).
Proof.
  intros L f arg0 w. unfold Main.run.
  destruct (String.eqb_spec arg0 "") as [->|Ha].
  { split; [reflexivity | congruence]. }
  pose proof (run_from_query_shape L Main.fields (Main.goflags_in_force f) f arg0 w) as H.
  cbv zeta in H.
  destruct H as [(err & ->) | [(mid & fin & Hmid & _ & ->) | (mid & ms & p & rest & Hmid & _ & _ & ->)]];
    cbn [fst]; (split; [|intros _; eauto]); simpl; f_equal.
  - apply (filter_none front_event is_http mid front_not_http Hmid).
  - rewrite filter_app, (filter_none front_event is_http mid front_not_http Hmid).
    apply (filter_none install_event is_http _ install_not_http), install_events.
Qed.

Lemma install_spawn_facts w goflags importPath input bin args :
  In (Spawn bin args) (fst (install w goflags importPath input)) ->
  exec_LookPath w "go" = Some bin
  /\ args = install_args goflags importPath
  /\ snd (install w goflags importPath input)
     = match cmd_Run w bin args with None => Exit 0 | Some _ => Exit 1 end
  /\ In (Stdout ("Install command: " ++ bin ++ " " ++ Go.Join args " " ++ nl))
        (fst (install w goflags importPath input)).
Proof.
  unfold install. destruct (exec_LookPath w "go") as [goBin|].
  - destruct input as [|r rest].
    + simpl. intros H. repeat (destruct H as [H | H]; try discriminate). contradiction.
    + destruct (cmd_Run w goBin (install_args goflags importPath)) eqn:Hrun; simpl; intros H;
        repeat (destruct H as [H | H]; try discriminate); try contradiction;
        injection H as <- <-; rewrite Hrun; auto 10.
  - simpl. intros H. repeat (destruct H as [H | H]; try discriminate). contradiction.
Qed.

Lemma install_spawns_once w goflags importPath input :
  (List.length (filter is_spawn (fst (install w goflags importPath input))) <= 1)%nat.
Proof.
  unfold install. destruct (exec_LookPath w "go") as [goBin|]; [|simpl; lia].
  destruct input; [simpl; lia|].
  destruct (cmd_Run w goBin (install_args goflags importPath)); simpl; lia.
Qed.

Lemma In_not_kind {A : Type} (kind t : A -> bool) (l : list A) (x : A) :
  (forall y, kind y = true -> t y = false) ->
  forallb kind l = true -> t x = true -> ~ In x l.
Proof.
  intros Hk Hl Hx Hin. rewrite forallb_forall in Hl.
  rewrite (Hk x (Hl x Hin)) in Hx. discriminate.
Qed.

(** A process started by [run] is started by the installer. *)
Lemma run_from_query_spawn L fields goflags f query w bin args :
  In (Spawn bin args) (fst (run_from_query L fields goflags f query w)) ->
  exists matches p rest,
    snd (queryGodoc L fields w query) = inl matches
    /\ In p (snd (filter_rank L f query w matches))
    /\ In (Spawn bin args) (fst (install w goflags (Path p) rest))
    /\ incl (fst (install w goflags (Path p) rest))
            (fst (run_from_query L fields goflags f query w))
    /\ snd (run_from_query L fields goflags f query w)
       = snd (install w goflags (Path p) rest).
Proof.
  pose proof (run_from_query_shape L fields goflags f query w) as H. cbv zeta in H.
  destruct H as [(err & ->) | [(mid & fin & Hmid & _ & ->) | (mid & ms & p & rest & Hmid & Hq & Hp & ->)]];
    cbn [fst snd]; intros Hin.
  - repeat (destruct Hin as [Hin | Hin]; try discriminate). contradiction.
  - destruct Hin as [Hin | Hin]; [discriminate|].
    now apply (In_not_kind front_event is_spawn mid _ front_not_spawn Hmid) in Hin.
  - exists ms, p, rest. repeat split; try assumption.
    + destruct Hin as [Hin | Hin]; [discriminate|].
      apply in_app_or in Hin. destruct Hin as [Hin | Hin]; [|assumption].
      now apply (In_not_kind front_event is_spawn mid _ front_not_spawn Hmid) in Hin.
    + intros e He. right. apply in_or_app. now right.
Qed.

(** X8. [run] starts at most one install process. When it starts one, the
    binary is the one [exec.LookPath] found for [go], and the run returns 0
    when the process succeeds and 1 when it fails. *)
Theorem X8_one_install_process :
  forall (L : golib) (f : flags) (arg0 : string) (w : world),
    (List.length (filter is_spawn (fst (Main.run L f arg0 w))) <= 1)%nat
    /\ (forall bin args,
          In (Spawn bin args) (fst (Main.run L f arg0 w)) ->
          exec_LookPath w "go" = Some bin
          /\ snd (Main.run L f arg0 w)
             = match cmd_Run w bin args with None => Exit 0 | Some _ => Exit 1 end).
Proof.
  intros L f arg0 w. unfold Main.run.
  destruct (arg0 =? "")%string.
  { split; [simpl; lia|]. simpl. intros bin args H.
    repeat (destruct H as [H | H]; try discriminate). contradiction. }
  split.
  - pose proof (run_from_query_shape L Main.fields (Main.goflags_in_force f) f arg0 w) as H.
    cbv zeta in H.
    destruct H as [(err & ->) | [(mid & fin & Hmid & _ & ->) | (mid & ms & p & rest & Hmid & _ & _ & ->)]];
      cbn [fst]; simpl.
    + lia.
    + rewrite (filter_none front_event is_spawn mid front_not_spawn Hmid). simpl. lia.
    + rewrite filter_app, (filter_none front_event is_spawn mid front_not_spawn Hmid).
      apply install_spawns_once.
  - intros bin args H. apply run_from_query_spawn in H.
    destruct H as (ms & p & rest & _ & _ & Hin & _ & ->).
    apply install_spawn_facts in Hin. now destruct Hin as (H1 & _ & H3 & _).
Qed.

(** X9. The command line printed after [Install command:] is the command
    that is run: the same binary and the same arguments, joined by spaces. *)
Theorem X9_printed_command_is_run :
  forall (L : golib) (f : flags) (arg0 : string) (w : world) (bin : string)
         (args : list string),
    In (Spawn bin args) (fst (Main.run L f arg0 w)) ->
    In (Stdout ("Install command: " ++ bin ++ " " ++ Go.Join args " " ++ nl))
       (fst (Main.run L f arg0 w)).
Proof.
  intros L f arg0 w bin args. unfold Main.run.
  destruct (arg0 =? "")%string.
  { simpl. intros H. repeat (destruct H as [H | H]; try discriminate). contradiction. }
  intros H. apply run_from_query_spawn in H.
  destruct H as (ms & p & rest & _ & _ & Hin & Hincl & _).
  apply Hincl. now apply install_spawn_facts in Hin.
Qed.

Lemma X9_witness :
  In (Stdout ("Install command: /usr/bin/go get -u -v example.com/foobar" ++ nl))
     (fst (Main.run Std.lib default_flags "foo" (example_world [Line ("1" ++ nl); Line nl]))).
Proof.
  apply (X9_printed_command_is_run Std.lib default_flags "foo"
           (example_world [Line ("1" ++ nl); Line nl])
           "/usr/bin/go" ["get"; "-u"; "-v"; "example.com/foobar"]).
  vm_compute. auto 20.
Defined.

(** ** The input that is read *)

(** X10. As long as every read fails or gives an integer outside the table,
    the selector goes on prompting: once the table is shown, a run whose whole
    input is of this kind neither returns nor starts a process. A standard
    input at its end, where every read fails, is such an input. *)
Theorem X10_selector_never_gives_up :
  forall (L : golib) (f : flags) (arg0 : string) (w : world) (matches : list pack),
    arg0 <> "" ->
    snd (queryGodoc L Main.fields w arg0) = inl matches ->
    snd (filter_rank L f arg0 w matches) <> [] ->
    Forall (reprompts L (len (snd (filter_rank L f arg0 w matches)))) (stdin w) ->
    snd (Main.run L f arg0 w) = Blocked
    /\ existsb is_spawn (fst (Main.run L f arg0 w)) = false
    /\ List.length (filter is_read (fst (Main.run L f arg0 w))) = S (List.length (stdin w)).
Proof.
  intros L f arg0 w matches Ha Hq Hne Hall.
  unfold Main.run. apply String.eqb_neq in Ha. rewrite Ha.
  rewrite (run_from_query_phases L Main.fields _ f arg0 w matches Hq). cbv zeta.
  destruct (len (snd (filter_rank L f arg0 w matches)) =? 0) eqn:E.
  { apply len_zero_iff in E. contradiction. }
  set (n := len (snd (filter_rank L f arg0 w matches))) in *.
  assert (Hs : snd (selector L n (stdin w)) = Starved).
  { rewrite <- (app_nil_r (stdin w)). now rewrite (selector_skip L n (stdin w) [] Hall). }
  rewrite Hs. cbn [fst snd]. split; [reflexivity|]. split.
  - rewrite queryGodoc_events.
    apply (existsb_app_false is_spawn [_]); [reflexivity|].
    apply existsb_app_false; [apply filter_rank_quiet | apply selector_no_spawn].
  - rewrite queryGodoc_events, !filter_app. cbn [filter is_read app].
    assert (Hf : filter is_read (fst (filter_rank L f arg0 w matches)) = []).
    { apply (filter_none table_event is_read); [|apply filter_rank_events].
      intros e; destruct e; simpl; trivial; discriminate. }
    rewrite Hf. cbn [app].
    clear - Hall. induction Hall as [|r input Hr _ IH]; [reflexivity|].
    destruct r as [l|partial].
    + destruct Hr as (k & Hk & Hout).
      rewrite (selector_out_of_range L n l k input Hk Hout). cbn [fst].
      simpl. now rewrite IH.
    + rewrite selector_read_error. cbn [fst]. simpl. now rewrite IH.
Qed.

Lemma X10_witness :
  snd (Main.run Std.lib default_flags "foo"
         (example_world [ReadErr ""; ReadErr ""; Line ("7" ++ nl); ReadErr ""])) = Blocked.
Proof.
  refine (proj1 (X10_selector_never_gives_up Std.lib default_flags "foo"
            (example_world [ReadErr ""; ReadErr ""; Line ("7" ++ nl); ReadErr ""])
            example_matches _ _ _ _)).
  - discriminate.
  - vm_compute. reflexivity.
  - vm_compute. discriminate.
  - repeat constructor. exists 7. split; [vm_compute; reflexivity | right; vm_compute; reflexivity].
Defined.

Lemma rows_from_with_stdin f w input (ps : list pack) : forall i,
  rows_from f (with_stdin w input) i ps = rows_from f w i ps.
Proof.
  induction ps as [|p ps IH]; intros i; [reflexivity|].
  simpl. now rewrite IH.
Qed.

Lemma filter_rank_with_stdin L f query w input matches :
  filter_rank L f query (with_stdin w input) matches = filter_rank L f query w matches.
Proof.
  rewrite !filter_rank_eq. now rewrite rows_from_with_stdin.
Qed.

(** What the selector has decided does not change when more input follows. *)
Lemma selector_more_input L n (input extra : list read_result) :
  match snd (selector L n input) with
  | Selected k rest =>
      selector L n (input ++ extra) = (fst (selector L n input), Selected k (rest ++ extra))
  | Declined => selector L n (input ++ extra) = (fst (selector L n input), Declined)
  | Starved => True
  end.
Proof.
  induction input as [|r input IH]; [exact I|].
  destruct r as [l|partial].
  - simpl. destruct (strconv_Atoi L (strings_TrimSpace L l)) as [k|]; [|reflexivity].
    destruct ((k <? 1) || (k >? n)); [|reflexivity].
    destruct (selector L n input) as [evs s]. cbn [snd fst] in *.
    destruct s; [| |exact I]; rewrite IH; reflexivity.
  - simpl. destruct (selector L n input) as [evs s]. cbn [snd fst] in *.
    destruct s; [| |exact I]; rewrite IH; reflexivity.
Qed.

Lemma install_more_input w goflags importPath (input extra : list read_result) :
  snd (install w goflags importPath input) <> Blocked ->
  install w goflags importPath (input ++ extra) = install w goflags importPath input.
Proof.
  unfold install. destruct (exec_LookPath w "go") as [goBin|]; [|reflexivity].
  destruct input; [intros H; now contradiction H | reflexivity].
Qed.

(** X11. A run that ends has stopped reading: what follows on standard
    input behind the reads it made changes neither what it does nor what it
    returns. *)
Theorem X11_unread_input_ignored :
  forall (L : golib) (f : flags) (arg0 : string) (w : world) (extra : list read_result),
    snd (Main.run L f arg0 w) <> Blocked ->
    Main.run L f arg0 (with_stdin w (stdin w ++ extra)) = Main.run L f arg0 w.
Proof.
  intros L f arg0 w extra. unfold Main.run.
  destruct (arg0 =? "")%string; [reflexivity|].
  destruct (snd (queryGodoc L Main.fields w arg0)) as [matches|err] eqn:Hq.
  - assert (Hq' : snd (queryGodoc L Main.fields (with_stdin w (stdin w ++ extra)) arg0)
                  = inl matches) by exact Hq.
    rewrite (run_from_query_phases L Main.fields _ f arg0 w matches Hq).
    rewrite (run_from_query_phases L Main.fields _ f arg0 _ matches Hq').
    cbv zeta. rewrite filter_rank_with_stdin.
    change (stdin (with_stdin w (stdin w ++ extra))) with (stdin w ++ extra)%list.
    change (fst (queryGodoc L Main.fields (with_stdin w (stdin w ++ extra)) arg0))
      with (fst (queryGodoc L Main.fields w arg0)).
    set (packs := snd (filter_rank L f arg0 w matches)).
    destruct (len packs =? 0); [reflexivity|].
    pose proof (selector_more_input L (len packs) (stdin w) extra) as Hsel.
    destruct (snd (selector L (len packs) (stdin w))) as [k rest| |].
    + rewrite Hsel. cbn [fst snd].
      destruct (index packs (k - 1)) as [p|]; [|reflexivity].
      change (install (with_stdin w (stdin w ++ extra)))
        with (install w).
      intros Hfin. now rewrite (install_more_input w _ (Path p) rest extra Hfin).
    + now rewrite Hsel.
    + intros H. now contradiction H.
  - intros _.
    assert (Hq' : snd (queryGodoc L Main.fields (with_stdin w (stdin w ++ extra)) arg0)
                  = inr err) by exact Hq.
    now rewrite (run_from_query_error L Main.fields _ f arg0 w err Hq),
                (run_from_query_error L Main.fields _ f arg0 _ err Hq').
Qed.

Lemma X11_witness :
  Main.run Std.lib default_flags "foo"
           (with_stdin (example_world [Line ("abc" ++ nl)])
                       (stdin (example_world [Line ("abc" ++ nl)]) ++ [Line ("1" ++ nl)]))
  = Main.run Std.lib default_flags "foo" (example_world [Line ("abc" ++ nl)]).
Proof.
  apply (X11_unread_input_ignored Std.lib default_flags "foo"
           (example_world [Line ("abc" ++ nl)]) [Line ("1" ++ nl)]).
  vm_compute. discriminate.
Defined.

(** ** What is displayed *)

Lemma sort_matches_perm L f (matches : list pack) :
  sort_contract L -> Permutation matches (sort_matches L f matches).
Proof.
  intros HL. unfold sort_matches. destruct (negb (apps f)); apply (sort_permutes L HL).
Qed.

Lemma NoDup_firstn {A : Type} (n : nat) : forall l : list A, NoDup l -> NoDup (firstn n l).
Proof.
  induction n as [|n IH]; intros l Hl; simpl; [constructor|].
  destruct l as [|x l]; [constructor|].
  inversion Hl as [|y l' Hx Hl']; subst. constructor; [|now apply IH].
  intros Hin. apply Hx. now apply In_firstn in Hin.
Qed.

Lemma NoDup_take {A : Type} (r : option nat) (l : list A) : NoDup l -> NoDup (take r l).
Proof. destruct r; simpl; [apply NoDup_firstn | trivial]. Qed.

(** X12. Every entry displayed is one of the hits of the response, and a
    hit is not displayed more often than the response holds it: when the hits
    are all different, so are the entries. *)
Theorem X12_displayed_are_hits :
  forall (L : golib) (f : flags) (query : string) (w : world) (matches : list pack),
    sort_contract L ->
    (forall p, In p (snd (filter_rank L f query w matches)) -> In p matches)
    /\ (NoDup matches -> NoDup (snd (filter_rank L f query w matches))).
Proof.
  intros L f query w matches HL. rewrite filter_rank_packs.
  pose proof (sort_matches_perm L f matches HL) as HP. split.
  - intros p Hp. apply In_take in Hp. apply filter_In in Hp. destruct Hp as [Hp _].
    apply (Permutation_in p (Permutation_sym HP) Hp).
  - intros Hnd. apply NoDup_take, NoDup_filter. apply (Permutation_NoDup HP Hnd).
Qed.

Lemma X12_witness :
  In (mkPack "delta" "example.com/foo/delta" 7 "fourth" false 2 0%float) scenario_hits.
Proof.
  apply (proj1 (X12_displayed_are_hits Std.lib default_flags "foo" (example_world [])
                  scenario_hits Std_contract)).
  vm_compute. auto.
Defined.

(** X13. Without a positive limit the table is complete: a hit is
    displayed exactly when it meets the five conditions. *)
Theorem X13_unlimited_is_complete :
  forall (L : golib) (f : flags) (query : string) (w : world) (matches : list pack)
         (p : pack),
    sort_contract L ->
    limit f <= 0 ->
    (In p (snd (filter_rank L f query w matches)) <-> In p matches /\ satisfies f query p).
Proof.
  intros L f query w matches p HL Hl. rewrite filter_rank_packs.
  unfold room. destruct (Z.gtb_spec (limit f) 0); [lia|]. simpl take.
  rewrite filter_In, keep_satisfies.
  pose proof (sort_matches_perm L f matches HL) as HP.
  split; intros [H1 H2]; (split; [|assumption]).
  - apply (Permutation_in p (Permutation_sym HP) H1).
  - apply (Permutation_in p HP H1).
Qed.

Lemma X13_witness :
  In (mkPack "delta" "example.com/foo/delta" 7 "fourth" false 2 0%float)
     (snd (filter_rank Std.lib (mkFlags 0 false false 1 0 false true None) "foo"
             (example_world []) scenario_hits))
  <-> In (mkPack "delta" "example.com/foo/delta" 7 "fourth" false 2 0%float) scenario_hits
      /\ satisfies (mkFlags 0 false false 1 0 false true None) "foo"
                   (mkPack "delta" "example.com/foo/delta" 7 "fourth" false 2 0%float).
Proof.
  apply (X13_unlimited_is_complete Std.lib (mkFlags 0 false false 1 0 false true None) "foo"
           (example_world []) scenario_hits _ Std_contract).
  simpl. lia.
Defined.

Lemma StronglySorted_app_inv (R : pack -> pack -> Prop) (a b : list pack) :
  StronglySorted R (a ++ b) -> forall x y, In x a -> In y b -> R x y.
Proof.
  induction a as [|z a IH]; intros Hs x y Hx Hy; [contradiction|].
  simpl in Hs. apply StronglySorted_inv in Hs. destruct Hs as [Hs Hz].
  destruct Hx as [-> | Hx].
  - rewrite Forall_forall in Hz. apply Hz, in_or_app. now right.
  - now apply IH.
Qed.

(** X14. With a positive limit the table holds the best-ranked hits: a hit
    that meets the five conditions and is left out finds the table full, and
    no entry of the table ranks below it. *)
Theorem X14_limit_keeps_the_best :
  forall (L : golib) (f : flags) (query : string) (w : world) (matches : list pack)
         (p : pack),
    sort_contract L ->
    In p matches ->
    satisfies f query p ->
    ~ In p (snd (filter_rank L f query w matches)) ->
    len (snd (filter_rank L f query w matches)) = limit f
    /\ (forall q, In q (snd (filter_rank L f query w matches)) ->
                  ranking_key f q >= ranking_key f p).
Proof.
  intros L f query w matches p HL Hin Hsat. rewrite filter_rank_packs.
  pose proof (sort_matches_perm L f matches HL) as HP.
  pose proof (sort_matches_sorted L f matches HL) as Hsorted.
  apply (StronglySorted_filter _ (keep f query)) in Hsorted.
  assert (Hk : In p (filter (keep f query) (sort_matches L f matches))).
  { apply filter_In. split; [apply (Permutation_in p HP Hin) | now apply keep_satisfies]. }
  set (kept := filter (keep f query) (sort_matches L f matches)) in *.
  unfold room. destruct (Z.gtb_spec (limit f) 0) as [Hl|Hl]; simpl take.
  2: { intros Hn. contradiction. }
  replace (Z.max 1 (limit f - len (@nil pack))) with (limit f)
    by (unfold len; simpl; lia).
  set (n := Z.to_nat (limit f)).
  intros Hout.
  assert (Hskip : In p (skipn n kept)).
  { rewrite <- (firstn_skipn n kept) in Hk. apply in_app_or in Hk. tauto. }
  split.
  - unfold len. rewrite length_firstn.
    assert (n < List.length kept)%nat.
    { destruct (Nat.lt_ge_cases n (List.length kept)) as [H|H]; [assumption|].
      rewrite (skipn_all2 kept H) in Hskip. contradiction. }
    lia.
  - intros q Hq. rewrite <- (firstn_skipn n kept) in Hsorted.
    exact (StronglySorted_app_inv _ _ _ Hsorted q p Hq Hskip).
Qed.

Lemma X14_witness :
  len (snd (filter_rank Std.lib (mkFlags 1 false false 1 0 false true None) "foo"
              (example_world []) scenario_hits)) = 1
  /\ (forall q, In q (snd (filter_rank Std.lib (mkFlags 1 false false 1 0 false true None)
                             "foo" (example_world []) scenario_hits)) ->
                ranking_key (mkFlags 1 false false 1 0 false true None) q
                >= ranking_key (mkFlags 1 false false 1 0 false true None)
                     (mkPack "alpha" "example.com/foo/alpha" 4 "first" false 3 0%float)).
Proof.
  apply (X14_limit_keeps_the_best Std.lib (mkFlags 1 false false 1 0 false true None) "foo"
           (example_world []) scenario_hits
           (mkPack "alpha" "example.com/foo/alpha" 4 "first" false 3 0%float) Std_contract).
  - simpl. auto.
  - apply keep_satisfies. vm_compute. reflexivity.
  - vm_compute. intros [H | H]; [discriminate | exact H].
Defined.

Lemma golist_paths_app (e1 e2 : list event) :
  golist_paths (e1 ++ e2) = (golist_paths e1 ++ golist_paths e2)%list.
Proof.
  induction e1 as [|e e1 IH]; [reflexivity|].
  destruct e; simpl; rewrite IH; reflexivity.
Qed.

Lemma golist_paths_rows_from f w (ps : list pack) : forall i,
  golist_paths (rows_from f w i ps) = if showInstalled f then map Path ps else [].
Proof.
  induction ps as [|p ps IH]; intros i; simpl.
  - now destruct (showInstalled f).
  - unfold row_events. rewrite !golist_paths_app, IH.
    destruct (showInstalled f); reflexivity.
Qed.

(** X15. The installed check [go list] is run only in the installed-marking
    mode, and then once for each entry displayed, on its path and in the order
    of the table; it is never run for a hit that is not displayed. *)
Theorem X15_installed_checks :
  forall (L : golib) (f : flags) (query : string) (w : world) (matches : list pack),
    golist_paths (fst (filter_rank L f query w matches))
    = if showInstalled f then map Path (snd (filter_rank L f query w matches)) else [].
Proof.
  intros L f query w matches. rewrite filter_rank_eq. cbn [fst snd].
  rewrite !golist_paths_app, golist_paths_rows_from.
  destruct (showInstalled f); simpl; now rewrite ?app_nil_r.
Qed.

(** X16. Both [Less] methods are orderings as [sort.Sort] needs them: no
    hit is less than itself, [Less] is transitive, and so is its negation.
    [packsByStars] puts more stars first, [packsByImports] more imports. *)
Theorem X16_Less_orderings :
  transitive_ordering Less_packsByStars
  /\ transitive_ordering Less_packsByImports
  /\ (forall a b, Less_packsByStars a b = true <-> Stars a > Stars b)
  /\ (forall a b, Less_packsByImports a b = true <-> ImportCount a > ImportCount b).
Proof.
  split; [exact Less_packsByStars_ordering|].
  split; [exact Less_packsByImports_ordering|].
  unfold Less_packsByStars, Less_packsByImports.
  split; intros a b; rewrite Z.gtb_ltb, Z.ltb_lt; lia.
Qed.

(** ** Decoding the hits *)

Lemma json_keys_Main :
  map Json.json_key Main.fields
  = [Some "name"; Some "path"; Some "ImportCount"; Some "synopsis"; Some "fork";
     Some "stars"; Some "score"].
Proof. vm_compute. reflexivity. Qed.

Lemma json_keys_Other : map Json.json_key Other.fields = map Json.json_key Main.fields.
Proof. vm_compute. reflexivity. Qed.

(** With these seven keys, whose folds differ, the exact match and the
    match by fold pick the same field. *)
Lemma find_field_by_fold (fields : list Json.struct_field) (k : string) :
  map Json.json_key fields = map Json.json_key Main.fields ->
  Json.find_field fields k = find (Json.key_folds_to k) fields.
Proof.
  rewrite json_keys_Main. intros Hkeys.
  unfold Json.find_field.
  destruct fields as [|f1 [|f2 [|f3 [|f4 [|f5 [|f6 [|f7 [|f8 fs]]]]]]]]; try discriminate.
  injection Hkeys as H1 H2 H3 H4 H5 H6 H7.
  unfold find, Json.key_is, Json.key_folds_to.
  rewrite H1, H2, H3, H4, H5, H6, H7.
  repeat match goal with
         | |- context [(?a =? k)%string] =>
             destruct (String.eqb_spec a k) as [<-|?]; [vm_compute; reflexivity|]
         end.
  reflexivity.
Qed.

Lemma find_same_test {A : Type} (t t' : A -> bool) (l : list A) :
  (forall x, t x = t' x) -> find t l = find t' l.
Proof.
  intros H. induction l as [|x l IH]; simpl; [reflexivity|]. now rewrite H, IH.
Qed.

Lemma find_field_same_fold (fields : list Json.struct_field) (k k' : string) :
  map Json.json_key fields = map Json.json_key Main.fields ->
  Json.foldName k = Json.foldName k' ->
  Json.find_field fields k = Json.find_field fields k'.
Proof.
  intros Hkeys Hfold. rewrite !find_field_by_fold by assumption.
  apply find_same_test. intros f. unfold Json.key_folds_to. now rewrite Hfold.
Qed.

Lemma decode_members_same_fold L (fields : list Json.struct_field)
      (ms ms' : list (string * json)) :
  map Json.json_key fields = map Json.json_key Main.fields ->
  Forall2 same_member ms ms' ->
  forall p, Json.decode_members L fields ms p = Json.decode_members L fields ms' p.
Proof.
  intros Hkeys. induction 1 as [|[k v] [k' v'] ms ms' [Hk Hv] _ IH]; intros p; [reflexivity|].
  simpl in Hk, Hv. subst v'. simpl.
  rewrite (find_field_same_fold fields k k' Hkeys Hk).
  destruct (Json.find_field fields k') as [fd|]; [|apply IH].
  destruct (Json.decode_field L fd v p); [apply IH | reflexivity].
Qed.

(** X17. The members of a hit are matched to the fields of [pack] without
    regard to the case of their letters: two objects whose members have, one
    by one, the same values and names of the same fold decode to the same
    hit, in both versions of the struct. *)
Theorem X17_member_names_fold :
  forall (L : golib) (ms ms' : list (string * json)) (p : pack),
    Forall2 same_member ms ms' ->
    Json.decode_members L Main.fields ms p = Json.decode_members L Main.fields ms' p
    /\ Json.decode_members L Other.fields ms p = Json.decode_members L Other.fields ms' p.
Proof.
  intros L ms ms' p H. split.
  - now apply decode_members_same_fold.
  - apply decode_members_same_fold; [exact json_keys_Other | assumption].
Qed.

Lemma X17_witness :
  Json.decode_members Std.lib Main.fields
    [("STARS", JNumber "3"); ("Path", JString "a/b")] pack_zero
  = Json.decode_members Std.lib Main.fields
    [("stars", JNumber "3"); ("path", JString "a/b")] pack_zero.
Proof.
  refine (proj1 (X17_member_names_fold Std.lib
                   [("STARS", JNumber "3"); ("Path", JString "a/b")]
                   [("stars", JNumber "3"); ("path", JString "a/b")] pack_zero _)).
  repeat constructor.
Defined.

Lemma decode_array_fresh L fields (elems : list json) : forall ps,
  Json.decode_array L fields elems [] = Ok ps
  <-> Forall2 (fun v p => Json.decode_pack L fields v pack_zero = Ok p) elems ps.
Proof.
  induction elems as [|v vs IH]; intros ps; simpl.
  - split.
    + intros H. injection H as <-. constructor.
    + intros H. now inversion H.
  - destruct (Json.decode_pack L fields v pack_zero) as [p|e] eqn:Hv.
    + destruct (Json.decode_array L fields vs []) as [ps'|e'] eqn:Hvs.
      * split.
        -- intros H. injection H as <-. constructor; [assumption | now apply IH].
        -- intros H. inversion H as [|? p' ? ps'' Hp Hps]; subst.
           unfold Ok in Hp. rewrite Hv in Hp. injection Hp as <-.
           apply IH in Hps. injection Hps as <-. reflexivity.
      * split; [discriminate|].
        intros H. inversion H as [|? p' ? ps'' Hp Hps]; subst.
        apply IH in Hps. discriminate.
    + split; [discriminate|].
      intros H. inversion H as [|? p' ? ps'' Hp Hps]; subst.
      unfold Ok in Hp. rewrite Hv in Hp. discriminate.
Qed.

(** X18. A response with one [results] array gives one hit for each
    element, in the order of the array, each decoded on its own from the zero
    value of [pack]; the decoding succeeds exactly when every element
    decodes. *)
Theorem X18_one_hit_per_element :
  forall (L : golib) (fields : list Json.struct_field) (key : string)
         (elems : list json) (ps : list pack),
    Json.is_Results key = true ->
    (Json.Decode L fields (JObject [(key, JArray elems)]) = Ok ps
     <-> Forall2 (fun v p => Json.decode_pack L fields v pack_zero = Ok p) elems ps).
Proof.
  intros L fields key elems ps Hk. simpl. rewrite Hk.
  rewrite <- decode_array_fresh.
  destruct (Json.decode_array L fields elems []); split; intros H;
    try discriminate; exact H.
Qed.

Lemma X18_witness :
  Json.Decode Std.lib Main.fields
    (JObject [("results", JArray [JObject [("path", JString "a")]; JNull])])
  = Ok [mkPack "" "a" 0 "" false 0 0%float; pack_zero].
Proof.
  apply (X18_one_hit_per_element Std.lib Main.fields "results"
           [JObject [("path", JString "a")]; JNull]
           [mkPack "" "a" 0 "" false 0 0%float; pack_zero]).
  - reflexivity.
  - repeat constructor.
Defined.

Lemma decode_array_bad_element L fields (elems : list json) : forall old,
  Exists not_a_hit elems ->
  exists e, Json.decode_array L fields elems old = Err e.
Proof.
  induction elems as [|v vs IH]; intros old H; [now inversion H|].
  simpl. destruct (Json.decode_pack L fields v (hd pack_zero old)) as [p|e] eqn:Hv;
    [|now exists e].
  inversion H as [? ? Hbad | ? ? Hbad]; subst.
  - destruct v; simpl in Hbad; try contradiction; discriminate.
  - destruct (IH (tl old) Hbad) as [e He]. rewrite He. now exists e.
Qed.

(** X19. One element of the [results] array that is neither an object nor
    [null] spoils the whole response: the search fails, and the run prints the
    error and returns 1 without showing the other hits. *)
Theorem X19_bad_element_fails_search :
  forall (L : golib) (f : flags) (arg0 : string) (w : world) (status key : string)
         (elems : list json) (ms : list (string * json)),
    arg0 <> "" ->
    http_Get w ("https://api.godoc.org/search?q=" ++ url_QueryEscape L arg0)
    = HttpResp 200 status (inr (JObject ((key, JArray elems) :: ms))) ->
    Json.is_Results key = true ->
    Exists not_a_hit elems ->
    exists e,
      Main.run L f arg0 w
      = ([HttpGet ("https://api.godoc.org/search?q=" ++ url_QueryEscape L arg0);
          PrintlnErr e], Exit 1).
Proof.
  intros L f arg0 w status key elems ms Ha Hget Hk Hbad.
  destruct (decode_array_bad_element L Main.fields elems [] Hbad) as [e He].
  exists e. unfold Main.run. apply String.eqb_neq in Ha. rewrite Ha.
  apply run_from_query_error. unfold queryGodoc. cbn [snd]. rewrite Hget.
  simpl. now rewrite Hk, He.
Qed.

Lemma X19_witness :
  exists e,
    Main.run Std.lib default_flags "foo"
      (mkWorld (fun _ => HttpResp 200 "200 OK"
                  (inr (JObject [("results", JArray [JObject []; JString "x"])])))
               (fun _ => false) (fun _ => None) (fun _ _ => None) [])
    = ([HttpGet ("https://api.godoc.org/search?q=" ++ url_QueryEscape Std.lib "foo");
        PrintlnErr e], Exit 1).
Proof.
  apply (X19_bad_element_fails_search Std.lib default_flags "foo"
           (mkWorld (fun _ => HttpResp 200 "200 OK"
                       (inr (JObject [("results", JArray [JObject []; JString "x"])])))
                    (fun _ => false) (fun _ => None) (fun _ _ => None) [])
           "200 OK" "results" [JObject []; JString "x"] []).
  - discriminate.
  - reflexivity.
  - reflexivity.
  - right. left. exact I.
Defined.

Lemma decode_top_no_results L fields (ms : list (string * json)) : forall cur,
  Forall (fun m => Json.is_Results (fst m) = false) ms ->
  Json.decode_top L fields ms cur = Ok cur.
Proof.
  induction ms as [|[k v] ms IH]; intros cur H; [reflexivity|].
  apply Forall_cons_iff in H. destruct H as [Hk H]. simpl in Hk |- *.
  rewrite Hk. now apply IH.
Qed.

Lemma filter_rank_nil L f query w :
  sort_contract L ->
  filter_rank L f query w []
  = (([TabHeader; TabFlush]
        ++ (if showInstalled f then [Stdout ("* = installed" ++ nl)] else []))%list, []).
Proof.
  intros HL. rewrite filter_rank_eq.
  pose proof (sort_matches_perm L f [] HL) as HP. apply Permutation_nil in HP.
  rewrite HP. simpl filter. unfold take.
  destruct (room f []); rewrite ?firstn_nil; reflexivity.
Qed.

(** X20. A response with status 200 whose body is [null], or an object
    without a member named [results], is a search without hits: the run
    prints the empty table and [No matches.] and returns 1. *)
Theorem X20_body_without_results :
  forall (L : golib) (f : flags) (arg0 : string) (w : world) (status : string)
         (body : json),
    sort_contract L ->
    arg0 <> "" ->
    http_Get w ("https://api.godoc.org/search?q=" ++ url_QueryEscape L arg0)
    = HttpResp 200 status (inr body) ->
    no_results body ->
    Main.run L f arg0 w =
    (([HttpGet ("https://api.godoc.org/search?q=" ++ url_QueryEscape L arg0);
       TabHeader; TabFlush]
        ++ (if showInstalled f then [Stdout ("* = installed" ++ nl)] else [])
        ++ [Stdout ("No matches." ++ nl)])%list,
     Exit 1).
Proof.
  intros L f arg0 w status body HL Ha Hget Hbody.
  assert (Hq : snd (queryGodoc L Main.fields w arg0) = inl []).
  { unfold queryGodoc. cbn [snd]. rewrite Hget. simpl.
    destruct body; try contradiction; [reflexivity|].
    simpl in Hbody |- *. now apply decode_top_no_results. }
  unfold Main.run. apply String.eqb_neq in Ha. rewrite Ha.
  rewrite (run_from_query_phases L Main.fields _ f arg0 w [] Hq). cbv zeta.
  rewrite (filter_rank_nil L f arg0 w HL), queryGodoc_events.
  destruct (showInstalled f); reflexivity.
Qed.

Lemma X20_witness :
  Main.run Std.lib default_flags "foo"
    (mkWorld (fun _ => HttpResp 200 "200 OK" (inr (JObject [("error", JString "x")])))
             (fun _ => false) (fun _ => None) (fun _ _ => None) [])
  = ([HttpGet "https://api.godoc.org/search?q=foo"; TabHeader; TabFlush;
      Stdout ("No matches." ++ nl)], Exit 1).
Proof.
  apply (X20_body_without_results Std.lib default_flags "foo"
           (mkWorld (fun _ => HttpResp 200 "200 OK" (inr (JObject [("error", JString "x")])))
                    (fun _ => false) (fun _ => None) (fun _ _ => None) [])
           "200 OK" (JObject [("error", JString "x")]) Std_contract).
  - discriminate.
  - reflexivity.
  - repeat constructor.
Defined.

(** ** The other version: [parseArgs] *)

Lemma parseArgs_by_length (os_Args : list string) :
  Other.parseArgs os_Args =
  match os_Args with
  | [] | [_] => Other.ParsePanic
  | [_; query] => Other.Parsed query [] []
  | _ :: _ :: _ :: _ => Other.ParseError (ErrNew "Must provide search term")
  end.
Proof.
  destruct os_Args as [|a [|b [|c rest]]]; try reflexivity.
  unfold Other.parseArgs.
  replace (len (a :: b :: c :: rest) >? 2) with true; [reflexivity|].
  symmetry. apply Z.gtb_lt. unfold len. simpl List.length. lia.
Qed.

(** X21. [parseArgs] accepts a command line only when it consists of the
    program name and the search term. With more it returns the error
    [Must provide search term], whatever the arguments are, and [run] prints
    it with the usage and returns 1 without sending a request; with the
    program name alone, slicing [os.Args[1:0]] panics. So no flag and no
    argument for [go get] ever gets through. *)
Theorem X21_parseArgs_cases :
  forall (L : golib) (Parse : list string -> option (flags * bool))
         (os_Args : list string) (w : world),
    Other.parseArgs os_Args =
    match os_Args with
    | [] | [_] => Other.ParsePanic
    | [_; query] => Other.Parsed query [] []
    | _ :: _ :: _ :: _ => Other.ParseError (ErrNew "Must provide search term")
    end
    /\ ((List.length os_Args > 2)%nat ->
        Other.run L Parse os_Args w
        = (([PrintlnErr (ErrNew "Must provide search term"); Stdout nl] ++ Other.usage)%list,
           Exit 1)).
Proof.
  intros L Parse os_Args w. split; [apply parseArgs_by_length|].
  intros Hlen. unfold Other.run. rewrite parseArgs_by_length.
  destruct os_Args as [|a [|b [|c rest]]]; simpl in Hlen; try lia. reflexivity.
Qed.

(** X22. In the other version the install command is always [go get] and
    the path, with no further argument, whatever the command line and the
    flag parser are. *)
Theorem X22_other_install_arguments :
  forall (L : golib) (Parse : list string -> option (flags * bool))
         (os_Args : list string) (w : world) (bin : string) (args : list string),
    In (Spawn bin args) (fst (Other.run L Parse os_Args w)) ->
    exists importPath, args = ["get"; importPath].
Proof.
  intros L Parse os_Args w bin args. unfold Other.run.
  rewrite parseArgs_by_length.
  destruct os_Args as [|a [|query [|c rest]]];
    try (simpl; intros H; repeat (destruct H as [H | H]; try discriminate); contradiction).
  destruct (Parse []) as [[f help]|];
    [|simpl; intros H; contradiction].
  destruct help.
  { simpl; intros H; repeat (destruct H as [H | H]; try discriminate); contradiction. }
  intros H. apply run_from_query_spawn in H.
  destruct H as (ms & p & rest & _ & _ & Hin & _).
  apply install_spawn_args in Hin. exists (Path p). exact Hin.
Qed.

Lemma X22_witness :
  exists importPath, ["get"; "example.com/foobar"] = ["get"; importPath].
Proof.
  apply (X22_other_install_arguments Std.lib (fun _ => Some (default_flags, false))
           ["gosearch"; "foo"] (example_world [Line ("1" ++ nl); Line nl])
           "/usr/bin/go" ["get"; "example.com/foobar"]).
  vm_compute. auto 20.
Defined.

Lemma split_args_step (arg : string) (rest : list string) (lastLocal : bool)
      (localArgs goArgs : list string) :
  Other.split_args (arg :: rest) lastLocal localArgs goArgs =
  if Other.Lookup (flag_name arg)
  then Other.split_args rest true (localArgs ++ [arg]) goArgs
  else if lastLocal then
         match arg with
         | EmptyString => None
         | String c _ =>
             if negb (Ascii.eqb c "-")
             then Other.split_args rest true (localArgs ++ [arg]) goArgs
             else Other.split_args rest false localArgs (goArgs ++ [arg])
         end
       else Other.split_args rest false localArgs (goArgs ++ [arg]).
Proof. reflexivity. Qed.

(** X23. The loop of [parseArgs] sends every argument to exactly one of
    the two lists, after what the lists held before: together the new entries
    are the arguments, each as often as it was given. An argument that names a
    declared flag is kept for the program, so what is handed to [go get] never
    names one. *)
Theorem X23_parseArgs_loop_partitions :
  forall (args : list string) (lastLocal : bool) (localArgs goArgs l g : list string),
    Other.split_args args lastLocal localArgs goArgs = Some (l, g) ->
    exists l1 g1,
      l = (localArgs ++ l1)%list /\ g = (goArgs ++ g1)%list
      /\ Permutation args (l1 ++ g1)
      /\ Forall (fun arg => Other.Lookup (flag_name arg) = false) g1.
Proof.
  induction args as [|arg rest IH]; intros lastLocal localArgs goArgs l g H.
  - simpl in H. injection H as <- <-. exists [], [].
    rewrite !app_nil_r. repeat split; constructor.
  - rewrite split_args_step in H.
    assert (Hlocal : forall ll, Other.split_args rest ll (localArgs ++ [arg]) goArgs = Some (l, g) ->
              exists l1 g1,
                l = (localArgs ++ l1)%list /\ g = (goArgs ++ g1)%list
                /\ Permutation (arg :: rest) (l1 ++ g1)
                /\ Forall (fun a => Other.Lookup (flag_name a) = false) g1).
    { intros ll H'. apply IH in H'. destruct H' as (l1 & g1 & -> & -> & HP & HF).
      exists (arg :: l1), g1. rewrite <- app_assoc. repeat split; try assumption.
      simpl. now apply perm_skip. }
    destruct (Other.Lookup (flag_name arg)) eqn:Hflag; [now apply (Hlocal true)|].
    assert (Hgo : Other.split_args rest false localArgs (goArgs ++ [arg]) = Some (l, g) ->
              exists l1 g1,
                l = (localArgs ++ l1)%list /\ g = (goArgs ++ g1)%list
                /\ Permutation (arg :: rest) (l1 ++ g1)
                /\ Forall (fun a => Other.Lookup (flag_name a) = false) g1).
    { intros H'. apply IH in H'. destruct H' as (l1 & g1 & -> & -> & HP & HF).
      exists l1, (arg :: g1). rewrite <- app_assoc. repeat split; try assumption.
      - now apply Permutation_cons_app.
      - now constructor. }
    destruct lastLocal; [|now apply Hgo].
    destruct arg as [|c r]; [discriminate|].
    destruct (negb (Ascii.eqb c "-")); [now apply (Hlocal true) | now apply Hgo].
Qed.

Lemma X23_witness :
  exists l1 g1,
    ["-limit"; "5"] = ([] ++ l1)%list /\ ["-u"; "x"] = ([] ++ g1)%list
    /\ Permutation ["-limit"; "5"; "-u"; "x"] (l1 ++ g1)
    /\ Forall (fun arg => Other.Lookup (flag_name arg) = false) g1.
Proof.
  apply (X23_parseArgs_loop_partitions ["-limit"; "5"; "-u"; "x"] false [] []).
  reflexivity.
Defined.

(** ** How a run ends *)

Lemma install_without_go w goflags importPath input :
  exec_LookPath w "go" = None ->
  install w goflags importPath input
  = ([Stdout ("Installing " ++ importPath ++ nl); LookPath "go";
      Stdout ("Could not find go binary in PATH" ++ nl)], Exit 1).
Proof. intros H. unfold install. now rewrite H. Qed.

Lemma existsb_none {A : Type} (kind t : A -> bool) (l : list A) :
  (forall x, kind x = true -> t x = false) ->
  forallb kind l = true -> existsb t l = false.
Proof.
  intros Hk. induction l as [|x l IH]; simpl; [reflexivity|].
  intros H. apply andb_prop in H. destruct H as [Hx Hl].
  now rewrite (Hk x Hx), IH.
Qed.

(** X24. When [go] is not found on the search path, a run that gets as far
    as a selection says so and returns 1; it does not wait for the
    confirmation, and no run starts a process. *)
Theorem X24_go_binary_missing :
  forall (L : golib) (f : flags) (arg0 : string) (w : world),
    exec_LookPath w "go" = None ->
    existsb is_spawn (fst (Main.run L f arg0 w)) = false
    /\ (In (LookPath "go") (fst (Main.run L f arg0 w)) ->
        snd (Main.run L f arg0 w) = Exit 1
        /\ exists front,
            fst (Main.run L f arg0 w)
            = (front ++ [LookPath "go";
                         Stdout ("Could not find go binary in PATH" ++ nl)])%list).
Proof.
  intros L f arg0 w Hgo. unfold Main.run.
  destruct (arg0 =? "")%string.
  { split; [reflexivity|]. simpl. intros H.
    repeat (destruct H as [H | H]; try discriminate). contradiction. }
  pose proof (run_from_query_shape L Main.fields (Main.goflags_in_force f) f arg0 w) as H.
  cbv zeta in H.
  destruct H as [(err & ->) | [(mid & fin & Hmid & _ & ->) | (mid & ms & p & rest & Hmid & _ & _ & ->)]];
    cbn [fst snd].
  - split; [reflexivity|]. simpl. intros H.
    repeat (destruct H as [H | H]; try discriminate). contradiction.
  - split.
    + simpl. apply (existsb_none front_event is_spawn mid front_not_spawn Hmid).
    + intros [H | H]; [discriminate|].
      exfalso. revert H. apply (In_not_kind front_event (fun e => negb (front_event e)) mid).
      * intros y Hy. now rewrite Hy.
      * assumption.
      * reflexivity.
  - rewrite (install_without_go w _ (Path p) rest Hgo). cbn [fst snd]. split.
    + simpl. rewrite existsb_app.
      rewrite (existsb_none front_event is_spawn mid front_not_spawn Hmid).
      reflexivity.
    + intros _. split; [reflexivity|].
      exists (HttpGet ("https://api.godoc.org/search?q=" ++ url_QueryEscape L arg0)
              :: mid ++ [Stdout ("Installing " ++ Path p ++ nl)])%list.
      simpl. now rewrite <- app_assoc.
Qed.

(** X25. [run] returns 0 only after a search that succeeded and left at
    least one entry in the table, and then in one of two ways: no process was
    started (the selection was declined), or the install process was started
    and succeeded. *)
Theorem X25_status_0 :
  forall (L : golib) (f : flags) (arg0 : string) (w : world),
    snd (Main.run L f arg0 w) = Exit 0 ->
    arg0 <> ""
    /\ (exists matches,
          snd (queryGodoc L Main.fields w arg0) = inl matches
          /\ snd (filter_rank L f arg0 w matches) <> [])
    /\ (existsb is_spawn (fst (Main.run L f arg0 w)) = false
        \/ exists bin args,
             In (Spawn bin args) (fst (Main.run L f arg0 w))
             /\ cmd_Run w bin args = None).
Proof.
  intros L f arg0 w. unfold Main.run.
  destruct (String.eqb_spec arg0 "") as [->|Ha]; [discriminate|].
  intros Hfin. split; [assumption|].
  destruct (snd (queryGodoc L Main.fields w arg0)) as [matches|err] eqn:Hq.
  2: { rewrite (run_from_query_error L Main.fields _ f arg0 w err Hq) in Hfin.
       discriminate. }
  rewrite (run_from_query_phases L Main.fields _ f arg0 w matches Hq) in Hfin |- *.
  cbv zeta in Hfin |- *.
  set (packs := snd (filter_rank L f arg0 w matches)) in *.
  destruct (len packs =? 0) eqn:E; [discriminate|].
  split.
  { exists matches. split; [reflexivity|]. intros Hnil.
    change (packs = []) in Hnil. apply len_zero_iff in Hnil.
    rewrite Hnil in E. discriminate. }
  rewrite queryGodoc_events.
  pose proof (filter_rank_quiet L f arg0 w matches) as [Hf _].
  pose proof (selector_no_spawn L (len packs) (stdin w)) as Hs.
  destruct (snd (selector L (len packs) (stdin w))) as [k rest| |]; [|left|discriminate].
  - destruct (index packs (k - 1)) as [p|]; [|discriminate].
    cbn [fst snd] in Hfin |- *.
    unfold install in Hfin |- *.
    destruct (exec_LookPath w "go") as [goBin|]; [|discriminate].
    destruct rest as [|r rest]; [discriminate|].
    destruct (cmd_Run w goBin (install_args (Main.goflags_in_force f) (Path p))) eqn:Hrun;
      [discriminate|].
    right. exists goBin, (install_args (Main.goflags_in_force f) (Path p)).
    split; [|assumption].
    cbn [fst]. right. apply in_or_app. right. apply in_or_app. right.
    apply in_or_app. right. simpl. auto 10.
  - cbn [fst].
    apply (existsb_app_false is_spawn [_]); [reflexivity|].
    now apply existsb_app_false.
Qed.

Lemma X25_witness :
  "foo" <> ""
  /\ (exists matches,
        snd (queryGodoc Std.lib Main.fields (example_world [Line ("q" ++ nl)]) "foo")
        = inl matches
        /\ snd (filter_rank Std.lib default_flags "foo" (example_world [Line ("q" ++ nl)])
                  matches) <> [])
  /\ (existsb is_spawn
        (fst (Main.run Std.lib default_flags "foo" (example_world [Line ("q" ++ nl)]))) = false
      \/ exists bin args,
           In (Spawn bin args)
              (fst (Main.run Std.lib default_flags "foo" (example_world [Line ("q" ++ nl)])))
           /\ cmd_Run (example_world [Line ("q" ++ nl)]) bin args = None).
Proof.
  apply (X25_status_0 Std.lib default_flags "foo" (example_world [Line ("q" ++ nl)])).
  vm_compute. reflexivity.
Defined.

Lemma X24_witness :
  existsb is_spawn
    (fst (Main.run Std.lib default_flags "foo"
            (mkWorld (http_Get (example_world [])) (fun _ => false) (fun _ => None)
                     (fun _ _ => None) [Line ("1" ++ nl); Line nl]))) = false.
Proof.
  refine (proj1 (X24_go_binary_missing Std.lib default_flags "foo"
            (mkWorld (http_Get (example_world [])) (fun _ => false) (fun _ => None)
                     (fun _ _ => None) [Line ("1" ++ nl); Line nl]) _)).
  reflexivity.
Defined.
